(** * The match score decoder of the ATP extraction pipeline

    A shallow embedding of [MatchesBaseExtractor.parse_score] and
    [MatchesBaseExtractor.get_match_ret]
    (src/ETL/Extractor/MatchesBaseExtractor.py) and the properties of the
    decoder proved about it.

    Modelling choices.
    - A Python [str] is a [string] of 8-bit characters.  The model is
      exact on ASCII score text (codes below 128); a code from 128 on is
      an ordinary character: not white space, not a digit, left alone by
      [upper].
    - A Python [int] is a [Z]; the counters are unbounded.
    - [self.logger] is a writer: every call appends one [Diagnostic].  The
      formatted text of a message is kept as its kind ([Message]) with the
      match id and the token it interpolates.
    - An exception is an explicit outcome [Raise]; diagnostics written
      before the exception stay written, the local counters are lost. *)

From Stdlib Require Import ZArith List String Ascii Bool Lia.
From Stdlib Require Import DecimalString DecimalZ.
From Stdlib Require Import Permutation.
Import ListNotations.

Open Scope string_scope.
Open Scope Z_scope.

(** ** Python strings *)

Module PyStr.

(** Code point of a character, for comparisons. *)
Definition ord (c : ascii) : N := N_of_ascii c.

(** [str.isspace] on one ASCII character: TAB, LF, VT, FF, CR, the four
    separators FS, GS, RS, US, and the space. *)
Definition isspace (c : ascii) : bool :=
  let n := ord c in
  ((9 <=? n) && (n <=? 13) || (28 <=? n) && (n <=? 32))%N.

(** The white space of C's [isspace], which [int()] skips around an ASCII
    literal. *)
Definition is_c_space (c : ascii) : bool :=
  let n := ord c in
  ((9 <=? n) && (n <=? 13) || (n =? 32))%N.

Definition isdigit (c : ascii) : bool :=
  let n := ord c in ((48 <=? n) && (n <=? 57))%N.

Definition digit_val (c : ascii) : Z := Z.of_N (ord c) - 48.

Definition islower (c : ascii) : bool :=
  let n := ord c in ((97 <=? n) && (n <=? 122))%N.

Definition upper_char (c : ascii) : ascii :=
  if islower c then ascii_of_N (ord c - 32) else c.

(** [s.upper()] *)
Fixpoint upper (s : string) : string :=
  match s with
  | EmptyString => EmptyString
  | String c r => String (upper_char c) (upper r)
  end.

(** Dropping the characters of a class from the left and from the right. *)
Fixpoint lstrip_by (sp : ascii -> bool) (s : string) : string :=
  match s with
  | EmptyString => EmptyString
  | String c r => if sp c then lstrip_by sp r else s
  end.

Fixpoint rstrip_by (sp : ascii -> bool) (s : string) : string :=
  match s with
  | EmptyString => EmptyString
  | String c r =>
      match rstrip_by sp r with
      | EmptyString => if sp c then EmptyString else String c EmptyString
      | r' => String c r'
      end
  end.

(** [s.strip()] *)
Definition strip (s : string) : string :=
  rstrip_by isspace (lstrip_by isspace s).

(** [p in s] for strings: [p] occurs in [s] as a substring. *)
Fixpoint contains (p s : string) : bool :=
  prefix p s ||
  match s with
  | EmptyString => false
  | String _ r => contains p r
  end.

(** [x in (a, b, ...)]: membership in a tuple or list of strings. *)
Definition mem (x : string) (l : list string) : bool :=
  existsb (String.eqb x) l.

(** [s.split()]: the maximal runs of characters that are not white space.
    [cur] is the run being read. *)
Fixpoint split_from (cur : string) (s : string) : list string :=
  match s with
  | EmptyString =>
      match cur with EmptyString => [] | _ => [cur] end
  | String c r =>
      if isspace c then
        match cur with
        | EmptyString => split_from EmptyString r
        | _ => cur :: split_from EmptyString r
        end
      else split_from (cur ++ String c EmptyString) r
  end.

Definition split (s : string) : list string := split_from EmptyString s.

(** Slices [s[:n]], [s[n:]], [s[n:m]] and the last character [s[-1]]. *)
Definition take (n : nat) (s : string) : string := substring 0 n s.
Definition drop (n : nat) (s : string) : string :=
  substring n (String.length s - n) s.
Definition slice (n m : nat) (s : string) : string := substring n (m - n) s.
Definition last1 (s : string) : string := drop (String.length s - 1) s.

(** One character of the string as a string, [s[i]] for an index in range. *)
Definition at_ (i : nat) (s : string) : string := substring i 1 s.

(** [a > b] and [a < b] on strings: lexicographic on code points. *)
Definition gt (a b : string) : bool := String.ltb b a.
Definition lt (a b : string) : bool := String.ltb a b.

(** Digits of an integer literal after its sign: one digit or more, any two
    of them separated by at most one underscore.  [acc] is the value read
    so far, [after_us] says that the last character read was an
    underscore. *)
Fixpoint int_digits (acc : Z) (after_us : bool) (s : string) : option Z :=
  match s with
  | EmptyString => if after_us then None else Some acc
  | String c r =>
      if isdigit c then int_digits (10 * acc + digit_val c) false r
      else if Ascii.eqb c "_" then
        if after_us then None else int_digits acc true r
      else None
  end.

Definition int_unsigned (s : string) : option Z :=
  match s with
  | String c _ => if isdigit c then int_digits 0 false s else None
  | EmptyString => None
  end.

(** [int(s)]: [None] stands for the [ValueError]. *)
Definition int (s : string) : option Z :=
  let s := rstrip_by is_c_space (lstrip_by is_c_space s) in
  match s with
  | String "+" r => int_unsigned r
  | String "-" r => option_map Z.opp (int_unsigned r)
  | _ => int_unsigned s
  end.

(** [str(n)], as an f-string renders an integer. *)
Definition str (n : Z) : string := NilZero.string_of_int (Z.to_int n).

End PyStr.

(** ** Diagnostics, exceptions and the decoder's effects *)

Inductive Severity := Info | Warning | Error.

(** The exception the decoder can meet: [int()] on a text that is not an
    integer literal. *)
Inductive Exc := ValueError (literal : string).

(** The message a logger call formats, by the text it starts with. *)
Inductive Message :=
| TieSetLaverCup          (* "(tie set) Laver Cup" *)
| TieSetNonLaver          (* "(tie set) non-Laver" *)
| SmallScoreNextGen       (* "(small score) NextGen" *)
| BigScoreGrandSlam       (* "(big score) Grand Slam" *)
| BigScoreOlympic         (* "(big score) Olympic" *)
| ScoreNotInWhiteList     (* "score not in white list" *)
| WinMarginLt2            (* "(win) margin <2" *)
| LosMarginLt2            (* "(los) margin <2" *)
| Len2EqualDigits         (* "len==2 but equal digits" *)
| Len3Unrecognized        (* "len==3 unrecognized" *)
| HugeScore               (* "(huge score)" *)
| Len4Tie                 (* "len==4 but tie" *)
| Len7Tie                 (* "len>=7 but tie" *)
| UnhandledSetFormat      (* "Unhandled set format" *)
| UnexpectedMatchScore (score : string)  (* "(unexpected match score)" *)
| ParseScoreError (e : Exc).             (* "parse_score error" *)

Record Diagnostic := mkDiag {
  severity : Severity;
  message : Message;
  diag_match_id : string;
  diag_token : option string
}.

Inductive Outcome (A : Type) :=
| Ok (a : A)
| Raise (e : Exc).
Arguments Ok {A} a.
Arguments Raise {A} e.

(** A computation: how it ends and what it logged, in order. *)
Definition M (A : Type) : Type := Outcome A * list Diagnostic.

Definition ret {A} (a : A) : M A := (Ok a, []).

Definition bind {A B} (m : M A) (k : A -> M B) : M B :=
  match m with
  | (Ok a, l) => let (r, l') := k a in (r, (l ++ l')%list)
  | (Raise e, l) => (Raise e, l)
  end.

Definition raise {A} (e : Exc) : M A := (Raise e, []).

Definition log (d : Diagnostic) : M unit := (Ok tt, [d]).

(** [try: m except Exception as e: h e] *)
Definition try_except {A} (m : M A) (h : Exc -> M A) : M A :=
  match m with
  | (Ok a, l) => (Ok a, l)
  | (Raise e, l) => let (r, l') := h e in (r, (l ++ l')%list)
  end.

Notation "x <- m ;; k" := (bind m (fun x => k))
  (at level 61, m at next level, right associativity).
Notation "m ;;; k" := (bind m (fun _ => k))
  (at level 61, right associativity).

(** [int(s)] inside the decoder. *)
Definition py_int (s : string) : M Z :=
  match PyStr.int s with
  | Some z => ret z
  | None => raise (ValueError s)
  end.

(** ** The six counters *)

Record Tally := mkTally {
  winner_sets_won : Z;
  loser_sets_won : Z;
  winner_games_won : Z;
  loser_games_won : Z;
  winner_tiebreaks_won : Z;
  loser_tiebreaks_won : Z
}.

Definition tally0 : Tally := mkTally 0 0 0 0 0 0.

Definition add_winner_sets (n : Z) (t : Tally) : Tally :=
  mkTally (winner_sets_won t + n) (loser_sets_won t) (winner_games_won t)
          (loser_games_won t) (winner_tiebreaks_won t)
          (loser_tiebreaks_won t).
Definition add_loser_sets (n : Z) (t : Tally) : Tally :=
  mkTally (winner_sets_won t) (loser_sets_won t + n) (winner_games_won t)
          (loser_games_won t) (winner_tiebreaks_won t)
          (loser_tiebreaks_won t).
Definition add_winner_games (n : Z) (t : Tally) : Tally :=
  mkTally (winner_sets_won t) (loser_sets_won t) (winner_games_won t + n)
          (loser_games_won t) (winner_tiebreaks_won t)
          (loser_tiebreaks_won t).
Definition add_loser_games (n : Z) (t : Tally) : Tally :=
  mkTally (winner_sets_won t) (loser_sets_won t) (winner_games_won t)
          (loser_games_won t + n) (winner_tiebreaks_won t)
          (loser_tiebreaks_won t).
Definition add_winner_tiebreaks (n : Z) (t : Tally) : Tally :=
  mkTally (winner_sets_won t) (loser_sets_won t) (winner_games_won t)
          (loser_games_won t) (winner_tiebreaks_won t + n)
          (loser_tiebreaks_won t).
Definition add_loser_tiebreaks (n : Z) (t : Tally) : Tally :=
  mkTally (winner_sets_won t) (loser_sets_won t) (winner_games_won t)
          (loser_games_won t) (winner_tiebreaks_won t)
          (loser_tiebreaks_won t + n).

(** ** The outcome classifier *)

Definition WALKOVER : string := "(W/O)".
Definition WEATHER : string := "(WEA)".
Definition RETIRED : string := "(RET)".

(** [get_match_ret]: [None] is a played match. *)
Definition get_match_ret (match_score : string) : option string :=
  let s := PyStr.strip match_score in
  if String.eqb s "" then None
  else
    let up := PyStr.upper s in
    if PyStr.contains "W/O" up || PyStr.contains "INV" up
       || PyStr.contains "WALKOVER" up then Some WALKOVER
    else if PyStr.contains "WEA" up then Some WEATHER
    else if PyStr.contains "RE" up || PyStr.contains "RET" up
            || PyStr.contains "DEF" up || PyStr.contains "UNP" up
    then Some RETIRED
    else if PyStr.contains "PLAYED AND UNFINISHED" up
            || PyStr.contains "PLAYED AND ABANDONED" up
            || PyStr.contains "UNFINISHED" up
    then Some RETIRED
    else None.

(** ** The set token decoder *)

Definition NEXTGEN : string := "7696".
Definition LAVER_CUP : string := "9210".
Definition grand_slams : list string := ["580"; "560"; "540"; "520"].
Definition olympics : list string := ["96"].
Definition small_scores : list string := ["40"; "41"; "42"; "04"; "14"; "24"].
Definition big_scores : list string := ["86"; "97"; "68"; "79"].
Definition white_list : list string :=
  ["60"; "61"; "62"; "63"; "64"; "75"; "76";
   "06"; "16"; "26"; "36"; "46"; "57"; "67"].

Section Decoder.

Variables match_id tournament_code : string.

Definition diag (sev : Severity) (msg : Message) (tok : string) : M unit :=
  log (mkDiag sev msg match_id (Some tok)).

(** The branch for a token with a [[]. *)
Definition decode_bracket (set_score : string) (t : Tally) : M Tally :=
  let t := add_winner_games 1 (add_winner_sets 1 t) in
  (if String.eqb tournament_code LAVER_CUP
   then diag Info TieSetLaverCup set_score
   else diag Warning TieSetNonLaver set_score) ;;;
  ret (add_winner_tiebreaks 1 t).

(** The branch [len(set_score) == 2]. *)
Definition decode_len2 (set_score : string) (t : Tally) : M Tally :=
  let pair := PyStr.take 2 set_score in
  let s0 := PyStr.at_ 0 set_score in
  let s1 := PyStr.at_ 1 set_score in
  (if String.eqb tournament_code NEXTGEN && PyStr.mem pair small_scores
   then diag Info SmallScoreNextGen set_score
   else if PyStr.mem pair big_scores && PyStr.mem tournament_code grand_slams
   then diag Info BigScoreGrandSlam set_score
   else if PyStr.mem pair big_scores && PyStr.mem tournament_code olympics
   then diag Warning BigScoreOlympic set_score
   else if negb (PyStr.mem pair white_list)
   then diag Error ScoreNotInWhiteList set_score
   else ret tt) ;;;
  if PyStr.gt s0 s1 then
    let t := add_winner_sets 1 t in
    g0 <- py_int s0 ;;
    let t := add_winner_games g0 t in
    g1 <- py_int s1 ;;
    let t := add_loser_games g1 t in
    if String.eqb pair "76" then ret (add_winner_tiebreaks 1 t)
    else if String.eqb pair "43" && String.eqb tournament_code NEXTGEN
    then ret (add_winner_tiebreaks 1 t)
    else
      a <- py_int s0 ;;
      b <- py_int s1 ;;
      if a - b <? 2 then diag Error WinMarginLt2 set_score ;;; ret t
      else ret t
  else if PyStr.lt s0 s1 then
    let t := add_loser_sets 1 t in
    g0 <- py_int s0 ;;
    let t := add_winner_games g0 t in
    g1 <- py_int s1 ;;
    let t := add_loser_games g1 t in
    if String.eqb pair "67" then ret (add_loser_tiebreaks 1 t)
    else if String.eqb pair "34" && String.eqb tournament_code NEXTGEN
    then ret (add_loser_tiebreaks 1 t)
    else
      a <- py_int s1 ;;
      b <- py_int s0 ;;
      if a - b <? 2 then diag Error LosMarginLt2 set_score ;;; ret t
      else ret t
  else diag Error Len2EqualDigits set_score ;;; ret t.

(** The branch [len(set_score) == 3]. *)
Definition decode_len3 (set_score : string) (t : Tally) : M Tally :=
  if PyStr.mem set_score ["810"; "911"] then
    let t := add_loser_sets 1 t in
    g <- (if String.eqb set_score "911"
          then py_int (PyStr.slice 0 2 set_score) else ret 10) ;;
    let t := add_loser_games g t in
    w <- py_int (PyStr.last1 set_score) ;;
    ret (add_winner_games w t)
  else if PyStr.mem set_score ["108"; "106"; "107"; "119"] then
    let t := add_winner_sets 1 t in
    if String.eqb set_score "108"
    then ret (add_loser_games 8 (add_winner_games 10 t))
    else if String.eqb set_score "106"
    then ret (add_loser_games 6 (add_winner_games 10 t))
    else if String.eqb set_score "107"
    then ret (add_loser_games 7 (add_winner_games 10 t))
    else if String.eqb set_score "119"
    then ret (add_loser_games 9 (add_winner_games 11 t))
    else ret t
  else diag Error Len3Unrecognized set_score ;;; ret t.

(** The branch [len(set_score) == 4]. *)
Definition decode_len4 (set_score : string) (t : Tally) : M Tally :=
  (if negb (PyStr.mem tournament_code grand_slams) || PyStr.gt set_score "2200"
   then diag Warning HugeScore set_score
   else ret tt) ;;;
  let left := PyStr.take 2 set_score in
  let right := PyStr.drop 2 set_score in
  if PyStr.gt left right then
    let t := add_winner_sets 1 t in
    gl <- py_int left ;;
    let t := add_winner_games gl t in
    gr <- py_int right ;;
    let t := add_loser_games gr t in
    a <- py_int left ;;
    b <- py_int right ;;
    if a - b <? 2 then diag Error WinMarginLt2 set_score ;;; ret t
    else ret t
  else if PyStr.gt right left then
    let t := add_loser_sets 1 t in
    gl <- py_int left ;;
    let t := add_winner_games gl t in
    gr <- py_int right ;;
    let t := add_loser_games gr t in
    a <- py_int right ;;
    b <- py_int left ;;
    if a - b <? 2 then diag Error LosMarginLt2 set_score ;;; ret t
    else ret t
  else diag Error Len4Tie set_score ;;; ret t.

(** The branch [len(set_score) >= 7]. *)
Definition decode_len7 (set_score : string) (t : Tally) : M Tally :=
  let left := PyStr.take 2 set_score in
  let right := PyStr.slice 2 4 set_score in
  if PyStr.gt left right then
    let t := add_winner_sets 1 t in
    gl <- py_int left ;;
    let t := add_winner_games gl t in
    gr <- py_int right ;;
    let t := add_loser_games gr t in
    ret (add_winner_tiebreaks 1 t)
  else if PyStr.lt left right then
    let t := add_loser_sets 1 t in
    gl <- py_int left ;;
    let t := add_winner_games gl t in
    gr <- py_int right ;;
    let t := add_loser_games gr t in
    ret (add_loser_tiebreaks 1 t)
  else diag Error Len7Tie set_score ;;; ret t.

(** One turn of the loop [for set_score in match_score_array].  The first
    statement of the source's loop body, a test for a bracket whose only
    branch is [pass], does nothing and has no counterpart here. *)
Definition decode_token (set_score : string) (t : Tally) : M Tally :=
  if PyStr.contains "[" set_score then decode_bracket set_score t
  else
    let n := String.length set_score in
    if Nat.eqb n 2 then decode_len2 set_score t
    else if Nat.eqb n 3 then decode_len3 set_score t
    else if Nat.eqb n 4 then decode_len4 set_score t
    else if Nat.leb 7 n then decode_len7 set_score t
    else diag Error UnhandledSetFormat set_score ;;; ret t.

(** The whole loop. *)
Fixpoint decode_tokens (match_score_array : list string) (t : Tally)
  : M Tally :=
  match match_score_array with
  | [] => ret t
  | set_score :: rest =>
      t' <- decode_token set_score t ;;
      decode_tokens rest t'
  end.

(** ** The validator and the result *)

Definition allowed : list string := ["30"; "31"; "32"; "21"; "20"].

(** The text [f"{winner_sets_won}{loser_sets_won}"]. *)
Definition sets_text (t : Tally) : string :=
  PyStr.str (winner_sets_won t) ++ PyStr.str (loser_sets_won t).

Definition validate (t : Tally) : M unit :=
  if negb (PyStr.mem (sets_text t) allowed)
  then log (mkDiag Error (UnexpectedMatchScore (sets_text t)) match_id None)
  else ret tt.

(** An element of the returned list. *)
Inductive Value := VNone | VStr (s : string) | VInt (n : Z).

Definition played_result (t : Tally) : list Value :=
  [VNone;
   VInt (winner_sets_won t); VInt (loser_sets_won t);
   VInt (winner_games_won t); VInt (loser_games_won t);
   VInt (winner_tiebreaks_won t); VInt (loser_tiebreaks_won t)].

Definition not_played_result (match_ret : string) : list Value :=
  [VStr match_ret; VNone; VNone; VNone; VNone; VNone; VNone].

Definition all_null : list Value :=
  [VNone; VNone; VNone; VNone; VNone; VNone; VNone].

(** The body of the [try]. *)
Definition parse_score_body (match_score : string) : M (list Value) :=
  match get_match_ret match_score with
  | Some match_ret => ret (not_played_result match_ret)
  | None =>
      let match_score_array := PyStr.split match_score in
      t <- decode_tokens match_score_array tally0 ;;
      validate t ;;;
      ret (played_result t)
  end.

(** The [except Exception as e] handler. *)
Definition parse_score_handler (e : Exc) : M (list Value) :=
  log (mkDiag Error (ParseScoreError e) match_id None) ;;;
  ret all_null.

Definition parse_score (match_score : string) : M (list Value) :=
  try_except (parse_score_body match_score) parse_score_handler.

End Decoder.

(** ** Vocabulary of the properties *)

(** The first position of the returned list and the six after it. *)
Definition outcome_flag (r : list Value) : Value := nth 0 r VNone.
Definition numeric_fields (r : list Value) : list Value := skipn 1 r.

Definition is_set (v : Value) : bool :=
  match v with VInt _ => true | _ => false end.
Definition is_unset (v : Value) : bool :=
  match v with VNone => true | _ => false end.

(** The body of the [try] ends in an exception. *)
Definition faults (match_id tournament_code match_score : string) : bool :=
  match fst (parse_score_body match_id tournament_code match_score) with
  | Raise _ => true
  | Ok _ => false
  end.

(** The pairs that credit a tiebreak in the two-character branch. *)
Definition winner_tiebreak_pair (tournament_code tok : string) : bool :=
  String.eqb tok "76"
  || String.eqb tok "43" && String.eqb tournament_code NEXTGEN.
Definition loser_tiebreak_pair (tournament_code tok : string) : bool :=
  String.eqb tok "67"
  || String.eqb tok "34" && String.eqb tournament_code NEXTGEN.

(** A token of two characters. *)
Definition token2 (a b : ascii) : string := String a (String b EmptyString).

(** The raw text contains [p] when letter case is ignored. *)
Definition mentions (p text : string) : bool :=
  PyStr.contains p (PyStr.upper text).

Definition walkover_text (text : string) : bool :=
  mentions "W/O" text || mentions "INV" text || mentions "WALKOVER" text.
Definition weather_text (text : string) : bool := mentions "WEA" text.
Definition retired_text (text : string) : bool :=
  mentions "RE" text || mentions "DEF" text || mentions "UNP" text
  || mentions "PLAYED AND UNFINISHED" text
  || mentions "PLAYED AND ABANDONED" text || mentions "UNFINISHED" text.

(** The final set counts a best-of-3 or best-of-5 match can end with. *)
Definition allowed_pairs : list (Z * Z) :=
  [(3, 0); (3, 1); (3, 2); (2, 0); (2, 1)].
Definition pair_allowed (w l : Z) : bool :=
  existsb (fun p => (fst p =? w) && (snd p =? l)) allowed_pairs.

(** A pattern that starts and ends with a character that is not white
    space; [strip] cannot cut an occurrence of it. *)
Definition first_nonspace (p : string) : bool :=
  match p with
  | EmptyString => false
  | String a _ => negb (PyStr.isspace a)
  end.
Fixpoint last_nonspace (p : string) : bool :=
  match p with
  | EmptyString => true
  | String a EmptyString => negb (PyStr.isspace a)
  | String _ r => last_nonspace r
  end.

(** The ten digit characters. *)
Definition digits : list ascii :=
  ["0"; "1"; "2"; "3"; "4"; "5"; "6"; "7"; "8"; "9"]%char.

(** ** More of Python's strings, for the callers of the decoder *)

Module PyText.

(** [s.replace(old, new)] for a pattern [old] that is not empty: the
    occurrences are taken from the left and do not overlap.  [skip] counts
    the characters of a matched occurrence still to pass over. *)
Fixpoint replace_skip (old new : string) (skip : nat) (s : string) : string :=
  match s with
  | EmptyString => EmptyString
  | String c r =>
      match skip with
      | S k => replace_skip old new k r
      | O =>
          if prefix old s
          then new ++ replace_skip old new (String.length old - 1) r
          else String c (replace_skip old new 0 r)
      end
  end.

Definition replace (old new s : string) : string := replace_skip old new 0 s.

(** [sep.join(l)] *)
Fixpoint join (sep : string) (l : list string) : string :=
  match l with
  | [] => EmptyString
  | [x] => x
  | x :: r => x ++ sep ++ join sep r
  end.

(** The truth value of a string: it is not empty. *)
Definition truthy (s : string) : bool := negb (String.eqb s "").

(** No character of the string is white space. *)
Fixpoint spaceless (s : string) : bool :=
  match s with
  | EmptyString => true
  | String c r => negb (PyStr.isspace c) && spaceless r
  end.

(** A token: not empty and without white space. *)
Definition is_token (s : string) : bool := truthy s && spaceless s.

End PyText.

(** ** What the callers log *)

Inductive NoteKind :=
| NormalizeIn (s : string)      (* "normalize_tie_set_score IN" *)
| NormalizeOut (s : string)     (* "normalize_tie_set_score OUT" *)
| AdjustmentApplied (match_id adj : string)  (* "Adjustment applied" *)
| ScoreArraysDiffer (n m : nat) (* "winner_score_array(n) != ..." *)
| ScoreAdjustment (match_id score : string) (* "Score adjustment for" *)
| CannotParseDuration (dur_text : string)   (* "Cannot parse duration" *)
| NoDurationFound.                          (* "No duration found" *)

Record Note := mkNote {
  note_severity : Severity;
  note_kind : NoteKind
}.

(** ** The other helpers of [MatchesBaseExtractor] *)

(** [normalize_tie_set_score]: the text returned and the two Info lines. *)
Definition normalize_tie_set_score (tie_set_score : string)
  : string * list Note :=
  let line_in := mkNote Info (NormalizeIn tie_set_score) in
  if String.eqb tie_set_score "" then (tie_set_score, [line_in])
  else
    let out :=
      if String.eqb (PyStr.at_ 0 tie_set_score) "[" then
        let tmp :=
          PyText.replace "]" "" (PyText.replace "[" ""
            (PyText.replace "-" "" tie_set_score)) in
        let tail :=
          if Nat.ltb 2 (String.length tmp) then PyStr.drop 2 tmp else tmp in
        "10[" ++ tail ++ "]"
      else tie_set_score in
    (out, [line_in; mkNote Info (NormalizeOut out)]).

(** A dictionary from strings to strings, the latest binding of a key
    first. *)
Definition Dict : Type := list (string * string).

Fixpoint dict_get (k : string) (d : Dict) : option string :=
  match d with
  | [] => None
  | (k', v) :: r => if String.eqb k k' then Some v else dict_get k r
  end.

Definition dict_set (k v : string) (d : Dict) : Dict := (k, v) :: d.

(** The loop of [_fetch_adjustments] over the rows the query returned,
    [target[str(match_id)] = str(value)] for each row in order; a row is
    given by the two texts [str] yields. *)
Definition fetch_adjustments (rows : list (string * string)) (target : Dict)
  : Dict :=
  fold_left (fun d row => dict_set (fst row) (snd row) d) rows target.

(** [adjust_score], given the dictionary [_dic_match_scores_adj]. *)
Definition adjust_score (dic_match_scores_adj : Dict)
    (match_id score : string) : string * list Note :=
  match dict_get match_id dic_match_scores_adj with
  | Some adj => (adj, [mkNote Warning (AdjustmentApplied match_id adj)])
  | None => (score, [])
  end.

(** ** The score text [MatchesATPExtractor] hands to the decoder *)

(** The list [parts] that the loop of
    [_compose_score_from_score_item_arrays] builds: one entry for each
    index below both lengths, with the tiebreak detail in parentheses when
    there is one. *)
Fixpoint compose_parts (winner_score_array loser_score_array
                          tiebreak_array : list string) : list string :=
  match winner_score_array, loser_score_array with
  | w :: ws, l :: ls =>
      let w := PyStr.strip w in
      let l := PyStr.strip l in
      let tb :=
        match tiebreak_array with
        | t :: _ => PyStr.strip t
        | [] => EmptyString
        end in
      (if PyText.truthy tb then w ++ l ++ "(" ++ tb ++ ")" else w ++ l)
      :: compose_parts ws ls (tl tiebreak_array)
  | _, _ => []
  end.

Definition compose_score_from_score_item_arrays
    (winner_score_array loser_score_array tiebreak_array : list string)
  : string * list Note :=
  let n := List.length winner_score_array in
  let m := List.length loser_score_array in
  (PyStr.strip
     (PyText.join " "
        (filter PyText.truthy
           (compose_parts winner_score_array loser_score_array
              tiebreak_array))),
   if Nat.eqb n m then [] else [mkNote Warning (ScoreArraysDiffer n m)]).

(** The loop [while "  " in match_score: match_score =
    match_score.replace("  ", " ")] of [_parse_tournament], run for at most
    [fuel] passes; [None] when the passes do not suffice. *)
Fixpoint squeeze_loop (fuel : nat) (match_score : string) : option string :=
  if PyStr.contains "  " match_score then
    match fuel with
    | O => None
    | S f => squeeze_loop f (PyText.replace "  " " " match_score)
    end
  else Some match_score.

(** ** Sums of counters *)

(** Field by field sum of two tallies. *)
Definition tally_add (t d : Tally) : Tally :=
  mkTally (winner_sets_won t + winner_sets_won d)
          (loser_sets_won t + loser_sets_won d)
          (winner_games_won t + winner_games_won d)
          (loser_games_won t + loser_games_won d)
          (winner_tiebreaks_won t + winner_tiebreaks_won d)
          (loser_tiebreaks_won t + loser_tiebreaks_won d).

(** The number a two-digit text writes. *)
Definition two_digit_value (a b : ascii) : Z :=
  10 * PyStr.digit_val a + PyStr.digit_val b.

(** A token of four characters. *)
Definition token4 (a b c d : ascii) : string :=
  String a (String b (String c (String d EmptyString))).

(** Texts of digits, and texts of digits and white space. *)
Fixpoint all_digits (s : string) : bool :=
  match s with
  | EmptyString => true
  | String c r => PyStr.isdigit c && all_digits r
  end.

Fixpoint digits_and_spaces (s : string) : bool :=
  match s with
  | EmptyString => true
  | String c r => (PyStr.isdigit c || PyStr.isspace c) && digits_and_spaces r
  end.

(** No counter of [u] is below the same counter of [t]. *)
Definition tally_le (t u : Tally) : Prop :=
  winner_sets_won t <= winner_sets_won u /\
  loser_sets_won t <= loser_sets_won u /\
  winner_games_won t <= winner_games_won u /\
  loser_games_won t <= loser_games_won u /\
  winner_tiebreaks_won t <= winner_tiebreaks_won u /\
  loser_tiebreaks_won t <= loser_tiebreaks_won u.

(** More of Python's strings: [lower], [find]. *)
Module PyFind.

Definition isupper (c : ascii) : bool :=
  let n := PyStr.ord c in ((65 <=? n) && (n <=? 90))%N.

Definition lower_char (c : ascii) : ascii :=
  if isupper c then ascii_of_N (PyStr.ord c + 32) else c.

(** [s.lower()] *)
Fixpoint lower (s : string) : string :=
  match s with
  | EmptyString => EmptyString
  | String c r => String (lower_char c) (lower r)
  end.

(** [s.find(p)]: the least index where [p] occurs, [-1] when it does not;
    [i] is the index of the head of [s]. *)
Fixpoint find_from (p s : string) (i : Z) : Z :=
  if prefix p s then i
  else match s with
       | EmptyString => -1
       | String _ r => find_from p r (i + 1)
       end.

Definition find (p s : string) : Z := find_from p s 0.

End PyFind.

(** The characters the notes are cleaned of. *)
Definition LF : string := String "010" EmptyString.
Definition CR : string := String "013" EmptyString.
Definition TAB : string := String "009" EmptyString.

Definition WINS_THE_MATCH : string := "wins the match".

(** The score text cut from a note "... wins the match 64 76(5)", as
    [_parse_tournament] cuts it. *)
Definition notes_score (raw_notes : string) : string :=
  let cut := PyFind.find WINS_THE_MATCH (PyFind.lower raw_notes) in
  let start := Z.to_nat (cut + Z.of_nat (String.length WINS_THE_MATCH)) in
  PyStr.strip
    (PyText.replace "-" ""
       (PyText.replace "." ""
          (PyText.replace TAB ""
             (PyText.replace CR ""
                (PyText.replace LF "" (PyStr.drop start raw_notes)))))).


(** [s.split(sep)] for a separator of one character: the fields between
    the separators, empty fields included; [cur] is the field being
    read. *)
Fixpoint split_on_from (sep : ascii) (cur s : string) : list string :=
  match s with
  | EmptyString => [cur]
  | String c r =>
      if Ascii.eqb c sep then cur :: split_on_from sep EmptyString r
      else split_on_from sep (cur ++ String c EmptyString) r
  end.

Definition split_on (sep : ascii) (s : string) : list string :=
  split_on_from sep EmptyString s.


(** The tournament code [_parse_tournament] takes from the results URL:
    the eighth field between slashes, or the empty text. *)
Definition tournament_code_of_url (url : string) : string :=
  let parts := split_on "/" url in
  if Nat.ltb 7 (List.length parts) then nth 7 parts EmptyString
  else EmptyString.

Definition ATP_URL_PREFIX : string := "https://www.atptour.com".

(** No character of the text is [c]. *)
Fixpoint lacks (c : ascii) (s : string) : bool :=
  match s with
  | EmptyString => true
  | String a r => negb (Ascii.eqb a c) && lacks c r
  end.

(** ** The effects: equations of [bind] *)

Lemma fst_bind {A B} (m : M A) (k : A -> M B) :
  fst (bind m k) = match fst m with Ok a => fst (k a) | Raise e => Raise e end.
Proof. destruct m as [[a|e] l]; simpl; [destruct (k a)|]; reflexivity. Qed.

Lemma snd_bind {A B} (m : M A) (k : A -> M B) :
  snd (bind m k) =
  match fst m with
  | Ok a => (snd m ++ snd (k a))%list
  | Raise e => snd m
  end.
Proof. destruct m as [[a|e] l]; simpl; [destruct (k a)|]; reflexivity. Qed.

Lemma bind_ok {A B} (m : M A) (k : A -> M B) a l :
  m = (Ok a, l) -> bind m k = (fst (k a), (l ++ snd (k a))%list).
Proof. intros ->. simpl. destruct (k a); reflexivity. Qed.

Lemma bind_raise {A B} (m : M A) (k : A -> M B) e l :
  m = (Raise e, l) -> bind m k = (Raise e, l).
Proof. intros ->. reflexivity. Qed.

(** Unfolds one turn of the loop down to the tests it makes. *)
Ltac unfold_decoder :=
  unfold decode_token, decode_bracket, decode_len2, decode_len3,
    decode_len4, decode_len7, py_int, diag.

(** Splits on every test and every [int()] left in the goal. *)
Ltac split_tests :=
  repeat match goal with
  | |- context [if ?c then _ else _] => destruct c; simpl
  | |- context [match PyStr.int ?s with _ => _ end] =>
      destruct (PyStr.int s); simpl
  end.

(** ** Characters *)

Lemma isdigit_cases (c : ascii) : PyStr.isdigit c = true -> In c digits.
Proof.
  destruct c as [[] [] [] [] [] [] [] []]; intros H;
    try discriminate H; simpl; tauto.
Qed.

(** ** Three-character tokens *)

(** C1 (as the code behaves): the single token ["911"] credits one set to
    the loser and one game, the last digit, to the winner; the games it
    credits to the loser are the integer of its first two characters,
    ["91"], that is 91 and not 11.  The same holds for the token inside any
    score, whatever the counters are. *)
Theorem score_911_credits_91 (match_id tournament_code : string) :
  parse_score match_id tournament_code "911" =
    (Ok [VNone; VInt 0; VInt 1; VInt 1; VInt 91; VInt 0; VInt 0],
     [mkDiag Error (UnexpectedMatchScore "01") match_id None])
  /\ PyStr.slice 0 2 "911" = "91"
  /\ forall t,
       decode_token match_id tournament_code "911" t =
         (Ok (mkTally (winner_sets_won t) (loser_sets_won t + 1)
                      (winner_games_won t + 1) (loser_games_won t + 91)
                      (winner_tiebreaks_won t) (loser_tiebreaks_won t)), []).
Proof. repeat split. Qed.

(** ** Two-character tokens *)

Section TwoDigit.

Variables match_id tournament_code : string.

Ltac each_digit H :=
  simpl in H; repeat (destruct H as [<- | H]; [ | ]); try contradiction.

(** C4: a token of two digits adds one to the winner's tiebreaks exactly
    when it is ["76"], or ["43"] under the NextGen code ["7696"], and one
    to the loser's exactly when it is ["67"], or ["34"] under that code;
    and the score ["76 36 76"] under code ["250"] gives 2 sets to 1 and 2
    tiebreaks to 0. *)
Theorem two_digit_tiebreaks (a b : ascii) (t : Tally) :
  PyStr.isdigit a = true -> PyStr.isdigit b = true ->
  (exists t',
     fst (decode_token match_id tournament_code (token2 a b) t) = Ok t' /\
     winner_tiebreaks_won t' =
       winner_tiebreaks_won t +
       (if winner_tiebreak_pair tournament_code (token2 a b) then 1 else 0) /\
     loser_tiebreaks_won t' =
       loser_tiebreaks_won t +
       (if loser_tiebreak_pair tournament_code (token2 a b) then 1 else 0))
  /\ (forall code, winner_tiebreak_pair code "76" = true
                   /\ loser_tiebreak_pair code "67" = true
                   /\ winner_tiebreak_pair code "43" = String.eqb code "7696"
                   /\ loser_tiebreak_pair code "34" = String.eqb code "7696")
  /\ fst (parse_score match_id "250" "76 36 76") =
       Ok [VNone; VInt 2; VInt 1; VInt 17; VInt 18; VInt 2; VInt 0].
Proof.
  intros Ha Hb. split; [ | split; [ intros code; repeat split | reflexivity ] ].
  apply isdigit_cases in Ha, Hb.
  unfold winner_tiebreak_pair, loser_tiebreak_pair.
  set (ng := String.eqb tournament_code NEXTGEN).
  unfold_decoder. fold ng.
  set (gs := PyStr.mem tournament_code grand_slams).
  set (ol := PyStr.mem tournament_code olympics).
  each_digit Ha; each_digit Hb; destruct ng, gs, ol;
    (eexists; split; [ reflexivity | split; simpl; lia ]).
Qed.

(** C7: a token of two different digits whose margin is below 2 and which
    credits no tiebreak is still tallied in full: the side with the greater
    digit gets the set, both sides get their digit as games, and the last
    diagnostic written is the Error about the margin. *)
Theorem two_digit_margin_flagged_and_tallied (a b : ascii) (t : Tally) :
  PyStr.isdigit a = true -> PyStr.isdigit b = true ->
  a <> b ->
  Z.abs (PyStr.digit_val a - PyStr.digit_val b) < 2 ->
  winner_tiebreak_pair tournament_code (token2 a b) = false ->
  loser_tiebreak_pair tournament_code (token2 a b) = false ->
  exists pre,
    decode_token match_id tournament_code (token2 a b) t =
      (Ok (if PyStr.digit_val b <? PyStr.digit_val a
           then mkTally (winner_sets_won t + 1) (loser_sets_won t)
                        (winner_games_won t + PyStr.digit_val a)
                        (loser_games_won t + PyStr.digit_val b)
                        (winner_tiebreaks_won t) (loser_tiebreaks_won t)
           else mkTally (winner_sets_won t) (loser_sets_won t + 1)
                        (winner_games_won t + PyStr.digit_val a)
                        (loser_games_won t + PyStr.digit_val b)
                        (winner_tiebreaks_won t) (loser_tiebreaks_won t)),
       (pre ++ [mkDiag Error
                  (if PyStr.digit_val b <? PyStr.digit_val a
                   then WinMarginLt2 else LosMarginLt2)
                  match_id (Some (token2 a b))])%list).
Proof.
  intros Ha Hb Hab Hm Hw Hl. apply isdigit_cases in Ha, Hb.
  revert Hw Hl. unfold winner_tiebreak_pair, loser_tiebreak_pair.
  set (ng := String.eqb tournament_code NEXTGEN).
  unfold_decoder. fold ng.
  set (gs := PyStr.mem tournament_code grand_slams).
  set (ol := PyStr.mem tournament_code olympics).
  each_digit Ha; each_digit Hb;
    try (exfalso; apply Hab; reflexivity);
    try (exfalso; vm_compute in Hm; discriminate Hm);
    destruct ng; intros Hw Hl; try discriminate Hw; try discriminate Hl;
    destruct gs, ol;
    solve [ exists []; reflexivity | eexists [_]; reflexivity ].
Qed.

End TwoDigit.

Lemma two_digit_tiebreaks_witness :
  exists t',
    fst (decode_token "2019-7696-a-b-F" "7696" (token2 "4" "3") tally0)
      = Ok t' /\
    winner_tiebreaks_won t' = 1 /\ loser_tiebreaks_won t' = 0.
Proof.
  destruct (two_digit_tiebreaks "2019-7696-a-b-F" "7696" "4" "3" tally0
              eq_refl eq_refl) as [[t' [H1 [H2 H3]]] _].
  exists t'. split; [ exact H1 | split; [ exact H2 | exact H3 ] ].
Defined.

Lemma two_digit_margin_flagged_and_tallied_witness :
  exists pre,
    decode_token "2021-250-a-b-F" "250" (token2 "6" "5") tally0 =
      (Ok (mkTally 1 0 6 5 0 0),
       (pre ++ [mkDiag Error WinMarginLt2 "2021-250-a-b-F" (Some "65")])%list).
Proof.
  apply (two_digit_margin_flagged_and_tallied
           "2021-250-a-b-F" "250" "6" "5" tally0);
    solve [ reflexivity | discriminate ].
Defined.

(** ** Bracket tokens *)

(** C6: a token with a [[] credits one set, one game and one tiebreak to the
    winner and nothing to the loser, under every tournament code; the one
    diagnostic it writes is Info under the Laver Cup code ["9210"] and
    Warning under any other code. *)
Theorem bracket_token_credits_winner
    (match_id tournament_code set_score : string) (t : Tally) :
  PyStr.contains "[" set_score = true ->
  decode_token match_id tournament_code set_score t =
    (Ok (mkTally (winner_sets_won t + 1) (loser_sets_won t)
                 (winner_games_won t + 1) (loser_games_won t)
                 (winner_tiebreaks_won t + 1) (loser_tiebreaks_won t)),
     [mkDiag (if String.eqb tournament_code "9210" then Info else Warning)
             (if String.eqb tournament_code "9210"
              then TieSetLaverCup else TieSetNonLaver)
             match_id (Some set_score)]).
Proof.
  intros H. unfold decode_token. rewrite H.
  unfold decode_bracket, diag, LAVER_CUP.
  destruct (String.eqb tournament_code "9210"); reflexivity.
Qed.

Lemma bracket_token_credits_winner_witness :
  decode_token "2022-9210-a-b-F" "9210" "[10-8]" tally0 =
    (Ok (mkTally 1 0 1 0 1 0),
     [mkDiag Info TieSetLaverCup "2022-9210-a-b-F" (Some "[10-8]")])
  /\ decode_token "2022-250-a-b-F" "250" "[10-8]" tally0 =
    (Ok (mkTally 1 0 1 0 1 0),
     [mkDiag Warning TieSetNonLaver "2022-250-a-b-F" (Some "[10-8]")]).
Proof.
  split.
  - apply (bracket_token_credits_winner
             "2022-9210-a-b-F" "9210" "[10-8]" tally0).
    reflexivity.
  - apply (bracket_token_credits_winner
             "2022-250-a-b-F" "250" "[10-8]" tally0).
    reflexivity.
Defined.

(** ** The validator's text test *)

Lemma to_int_proper (n : Z) :
  Z.to_int n <> Decimal.Pos Decimal.Nil /\
  Z.to_int n <> Decimal.Neg Decimal.Nil.
Proof.
  destruct n as [|p|p]; simpl; split; try discriminate;
    intros [= H]; exact (DecimalPos.Unsigned.to_uint_nonnil p H).
Qed.

Lemma str_parses (n : Z) :
  NilZero.int_of_string (PyStr.str n) = Some (Z.to_int n).
Proof.
  unfold PyStr.str. destruct (to_int_proper n). now apply NilZero.isi.
Qed.

Lemma str_inj (n m : Z) : PyStr.str n = PyStr.str m -> n = m.
Proof.
  intros H. apply DecimalZ.to_int_inj.
  assert (E : Some (Z.to_int n) = Some (Z.to_int m))
    by (rewrite <- !str_parses, H; reflexivity).
  now injection E.
Qed.

Lemma str_nonempty (n : Z) : PyStr.str n <> "".
Proof.
  intros H. generalize (str_parses n). rewrite H. discriminate.
Qed.

Lemma app_two_chars (x y : string) (a b : ascii) :
  x <> "" -> y <> "" -> x ++ y = String a (String b "") ->
  x = String a "" /\ y = String b "".
Proof.
  intros Hx Hy. destruct x as [|c [|d x]]; simpl.
  - now destruct Hx.
  - intros [= -> ->]. auto.
  - intros [= _ _ H].
    destruct x; simpl in H; [ now destruct Hy | discriminate H ].
Qed.

(** The test on the text of the two counters is the test on the pair. *)
Lemma sets_text_allowed (t : Tally) :
  PyStr.mem (sets_text t) allowed =
  pair_allowed (winner_sets_won t) (loser_sets_won t).
Proof.
  unfold sets_text. destruct t as [w l wg lg wt lt].
  simpl winner_sets_won; simpl loser_sets_won.
  destruct (pair_allowed w l) eqn:P.
  - unfold pair_allowed, allowed_pairs in P. cbn [existsb fst snd] in P.
    repeat (apply orb_prop in P; destruct P as [P|P]);
      try discriminate P;
      apply andb_prop in P; destruct P as [Pw Pl];
      apply Z.eqb_eq in Pw, Pl; subst w l; reflexivity.
  - destruct (PyStr.mem _ allowed) eqn:A; [ | reflexivity ].
    exfalso. unfold PyStr.mem, allowed in A. cbn [existsb] in A.
    repeat (apply orb_prop in A; destruct A as [A|A]);
      try discriminate A;
      apply String.eqb_eq in A;
      apply app_two_chars in A; try apply str_nonempty;
      destruct A as [Aw Al];
      [ change "3" with (PyStr.str 3) in Aw; change "0" with (PyStr.str 0) in Al
      | change "3" with (PyStr.str 3) in Aw; change "1" with (PyStr.str 1) in Al
      | change "3" with (PyStr.str 3) in Aw; change "2" with (PyStr.str 2) in Al
      | change "2" with (PyStr.str 2) in Aw; change "1" with (PyStr.str 1) in Al
      | change "2" with (PyStr.str 2) in Aw;
        change "0" with (PyStr.str 0) in Al ];
      apply str_inj in Aw, Al; subst w l; discriminate P.
Qed.

Lemma validate_eq (match_id : string) (t : Tally) :
  validate match_id t =
    (Ok tt,
     if pair_allowed (winner_sets_won t) (loser_sets_won t) then []
     else [mkDiag Error (UnexpectedMatchScore (sets_text t)) match_id None]).
Proof.
  unfold validate. rewrite sets_text_allowed.
  destruct (pair_allowed _ _); reflexivity.
Qed.

(** ** The three ways [parse_score] ends *)

Section Whole.

Variables match_id tournament_code : string.

Lemma parse_score_not_played (s flag : string) :
  get_match_ret s = Some flag ->
  faults match_id tournament_code s = false /\
  parse_score match_id tournament_code s = (Ok (not_played_result flag), []).
Proof.
  intros H. unfold faults, parse_score, parse_score_body.
  rewrite H. split; reflexivity.
Qed.

Lemma parse_score_played (s : string) (t : Tally) (lg : list Diagnostic) :
  get_match_ret s = None ->
  decode_tokens match_id tournament_code (PyStr.split s) tally0 = (Ok t, lg) ->
  faults match_id tournament_code s = false /\
  parse_score match_id tournament_code s =
    (Ok (played_result t), (lg ++ snd (validate match_id t))%list).
Proof.
  intros H L. unfold faults, parse_score, parse_score_body.
  rewrite H. rewrite (bind_ok _ _ _ _ L).
  rewrite validate_eq. destruct (pair_allowed _ _); split; reflexivity.
Qed.

Lemma parse_score_faulted (s : string) (e : Exc) (lg : list Diagnostic) :
  get_match_ret s = None ->
  decode_tokens match_id tournament_code (PyStr.split s) tally0
    = (Raise e, lg) ->
  parse_score_body match_id tournament_code s = (Raise e, lg) /\
  faults match_id tournament_code s = true /\
  parse_score match_id tournament_code s =
    (Ok all_null,
     (lg ++ [mkDiag Error (ParseScoreError e) match_id None])%list).
Proof.
  intros H L. unfold faults, parse_score, parse_score_body.
  rewrite H. rewrite (bind_raise _ _ _ _ L).
  repeat split.
Qed.

(** The body faults only in the loop. *)
Lemma body_raise_inv (s : string) (e : Exc) (lb : list Diagnostic) :
  parse_score_body match_id tournament_code s = (Raise e, lb) ->
  get_match_ret s = None /\
  decode_tokens match_id tournament_code (PyStr.split s) tally0
    = (Raise e, lb).
Proof.
  unfold parse_score_body.
  destruct (get_match_ret s); [ discriminate | ].
  destruct (decode_tokens _ _ _ _) as [[t|e'] lg] eqn:L.
  - rewrite (bind_ok _ _ t lg eq_refl). rewrite validate_eq.
    destruct (pair_allowed _ _); discriminate.
  - rewrite (bind_raise _ _ e' lg eq_refl). intros [= -> ->]. auto.
Qed.

(** C3: [parse_score] always returns a list of seven elements and never
    ends in an exception; when the body of its [try] faults, the seven
    elements are null and the guard adds exactly one diagnostic, an Error,
    after those written before the fault. *)
Theorem parse_score_never_raises (s : string) :
  exists r lg,
    parse_score match_id tournament_code s = (Ok r, lg) /\
    List.length r = 7%nat /\
    (forall e lb,
       parse_score_body match_id tournament_code s = (Raise e, lb) ->
       r = all_null /\
       lg = (lb ++ [mkDiag Error (ParseScoreError e) match_id None])%list).
Proof.
  destruct (get_match_ret s) as [flag|] eqn:G.
  - destruct (parse_score_not_played s flag G) as [_ R].
    eexists; eexists; split; [ exact R | split; [ reflexivity | ] ].
    intros e lb B. apply body_raise_inv in B. destruct B as [B _].
    congruence.
  - destruct (decode_tokens match_id tournament_code (PyStr.split s) tally0)
      as [[t|e] lg] eqn:L.
    + destruct (parse_score_played s t lg G L) as [_ R].
      eexists; eexists; split; [ exact R | split; [ reflexivity | ] ].
      intros e lb B. apply body_raise_inv in B. destruct B as [_ B].
      congruence.
    + destruct (parse_score_faulted s e lg G L) as [_ [_ R]].
      eexists; eexists; split; [ exact R | split; [ reflexivity | ] ].
      intros e' lb B. apply body_raise_inv in B. destruct B as [_ B].
      rewrite L in B. injection B as <- <-. auto.
Qed.

Ltac close_case :=
  repeat match goal with |- _ /\ _ => split end;
  intros;
  first [ reflexivity
        | match goal with H : _ = _ |- _ => simpl in H; discriminate H end
        | match goal with
          | H : _ <> _ |- _ => exfalso; apply H; reflexivity
          end ].

(** C2 (amended): the returned list has six numeric positions; they are all
    unset when the outcome flag is not null; they are all set when the flag
    is null and the body of the [try] did not fault; and when it faulted
    all seven positions are null. *)
Theorem aggregate_invariant_unless_fault (s : string) :
  exists r lg,
    parse_score match_id tournament_code s = (Ok r, lg) /\
    List.length (numeric_fields r) = 6%nat /\
    (outcome_flag r <> VNone ->
     forallb is_unset (numeric_fields r) = true) /\
    (outcome_flag r = VNone -> faults match_id tournament_code s = false ->
     forallb is_set (numeric_fields r) = true) /\
    (faults match_id tournament_code s = true -> r = all_null).
Proof.
  destruct (get_match_ret s) as [flag|] eqn:G.
  - destruct (parse_score_not_played s flag G) as [F R].
    eexists; eexists; split; [ exact R | ].
    rewrite F. close_case.
  - destruct (decode_tokens match_id tournament_code (PyStr.split s) tally0)
      as [[t|e] lg] eqn:L.
    + destruct (parse_score_played s t lg G L) as [F R].
      eexists; eexists; split; [ exact R | ].
      rewrite F. close_case.
    + destruct (parse_score_faulted s e lg G L) as [_ [F R]].
      eexists; eexists; split; [ exact R | ].
      rewrite F. close_case.
Qed.

(** C8: on the Played path, once the loop has ended with its totals, the
    list returned holds exactly those totals, and the validator writes its
    Error exactly when the pair of set counts is not one of 3-0, 3-1, 3-2,
    2-0, 2-1. *)
Theorem validator_flags_but_keeps_totals
    (s : string) (t : Tally) (lg : list Diagnostic) :
  get_match_ret s = None ->
  decode_tokens match_id tournament_code (PyStr.split s) tally0
    = (Ok t, lg) ->
  parse_score match_id tournament_code s =
    (Ok (played_result t),
     (lg ++ (if pair_allowed (winner_sets_won t) (loser_sets_won t) then []
             else [mkDiag Error (UnexpectedMatchScore (sets_text t))
                          match_id None]))%list).
Proof.
  intros G L. destruct (parse_score_played s t lg G L) as [_ R].
  rewrite R, validate_eq. reflexivity.
Qed.

(** ** The loop *)

(** One token moves at most one of the two set counters, by one. *)
Lemma token_credits_at_most_one_set (tok : string) (t t' : Tally) :
  fst (decode_token match_id tournament_code tok t) = Ok t' ->
  (winner_sets_won t' = winner_sets_won t /\
   loser_sets_won t' = loser_sets_won t) \/
  (winner_sets_won t' = winner_sets_won t + 1 /\
   loser_sets_won t' = loser_sets_won t) \/
  (winner_sets_won t' = winner_sets_won t /\
   loser_sets_won t' = loser_sets_won t + 1).
Proof.
  unfold_decoder. repeat rewrite ?fst_bind; simpl.
  split_tests; try discriminate; intros H; inversion H; subst; simpl; lia.
Qed.

Lemma sets_loop (toks : list string) :
  forall t t',
    fst (decode_tokens match_id tournament_code toks t) = Ok t' ->
    winner_sets_won t <= winner_sets_won t' /\
    loser_sets_won t <= loser_sets_won t' /\
    winner_sets_won t' + loser_sets_won t'
      <= winner_sets_won t + loser_sets_won t + Z.of_nat (List.length toks).
Proof.
  induction toks as [|tok toks IH]; intros t t'.
  - simpl. intros [= <-]. lia.
  - cbn [decode_tokens]. rewrite fst_bind.
    destruct (fst (decode_token _ _ tok t)) as [t1|e] eqn:E; [ | discriminate ].
    intros H. apply IH in H. apply token_credits_at_most_one_set in E.
    cbn [List.length]. lia.
Qed.

(** A token that faults whatever the counters are makes the loop fault. *)
Lemma loop_faults (tok : string) (toks : list string) :
  (forall t, exists e,
      fst (decode_token match_id tournament_code tok t) = Raise e) ->
  In tok toks ->
  forall t, exists e,
    fst (decode_tokens match_id tournament_code toks t) = Raise e.
Proof.
  intros F. induction toks as [|x toks IH]; intros I t.
  - destruct I.
  - cbn [decode_tokens]. rewrite fst_bind.
    destruct (fst (decode_token _ _ x t)) as [t1|e] eqn:E.
    + destruct I as [-> | I].
      * destruct (F t) as [e' E']. congruence.
      * apply IH, I.
    + exists e. reflexivity.
Qed.

Lemma token_6a_faults (t : Tally) :
  decode_token match_id tournament_code "6a" t =
    (Raise (ValueError "a"),
     [mkDiag Error ScoreNotInWhiteList match_id (Some "6a")]).
Proof.
  unfold_decoder. simpl.
  destruct (String.eqb tournament_code NEXTGEN); reflexivity.
Qed.

(** C9: when the outcome flag returned is null and the body of the [try]
    did not fault, the two set counts returned are not negative and their
    sum is at most the number of tokens of the score. *)
Theorem sets_bounded_by_tokens
    (s : string) (r : list Value) (lg : list Diagnostic) :
  parse_score match_id tournament_code s = (Ok r, lg) ->
  outcome_flag r = VNone ->
  faults match_id tournament_code s = false ->
  exists w l,
    nth 1 r VNone = VInt w /\ nth 2 r VNone = VInt l /\
    0 <= w /\ 0 <= l /\
    w + l <= Z.of_nat (List.length (PyStr.split s)).
Proof.
  intros R N F.
  destruct (get_match_ret s) as [flag|] eqn:G.
  - destruct (parse_score_not_played s flag G) as [_ R'].
    rewrite R' in R. injection R as <- <-. discriminate N.
  - destruct (decode_tokens match_id tournament_code (PyStr.split s) tally0)
      as [[t|e] lg'] eqn:L.
    + destruct (parse_score_played s t lg' G L) as [_ R'].
      rewrite R' in R. injection R as <- <-.
      assert (B := sets_loop (PyStr.split s) tally0 t).
      rewrite L in B. specialize (B eq_refl). simpl in B.
      exists (winner_sets_won t), (loser_sets_won t).
      repeat split; try reflexivity; lia.
    + destruct (parse_score_faulted s e lg' G L) as [_ [F' _]].
      congruence.
Qed.

(** C10: the token ["6a"] compares as a set lost (['6'] is below ['a']),
    then [int("a")] faults; the match then returns seven nulls, whatever
    the other tokens of the score would have tallied: ["64"] alone is
    tallied, ["64 6a"] is not, and so for every played score with ["6a"]
    among its tokens. *)
Theorem non_digit_token_voids_match :
  PyStr.lt "6" "a" = true
  /\ (forall t, decode_token match_id tournament_code "6a" t =
                  (Raise (ValueError "a"),
                   [mkDiag Error ScoreNotInWhiteList match_id (Some "6a")]))
  /\ parse_score match_id tournament_code "6a" =
       (Ok all_null,
        [mkDiag Error ScoreNotInWhiteList match_id (Some "6a");
         mkDiag Error (ParseScoreError (ValueError "a")) match_id None])
  /\ fst (parse_score match_id tournament_code "64") =
       Ok [VNone; VInt 1; VInt 0; VInt 6; VInt 4; VInt 0; VInt 0]
  /\ fst (parse_score match_id tournament_code "64 6a") = Ok all_null
  /\ (forall s, get_match_ret s = None -> In "6a" (PyStr.split s) ->
                fst (parse_score match_id tournament_code s) = Ok all_null).
Proof.
  split; [ reflexivity | ]. split; [ exact token_6a_faults | ].
  assert (G : forall s,
             get_match_ret s = None -> In "6a" (PyStr.split s) ->
             fst (parse_score match_id tournament_code s) = Ok all_null).
  { intros s G I.
    destruct (decode_tokens match_id tournament_code (PyStr.split s) tally0)
      as [[t|e] lg] eqn:L.
    - destruct (loop_faults "6a" (PyStr.split s)) with (t := tally0) as [e E].
      + intros t'. eexists. rewrite token_6a_faults. reflexivity.
      + exact I.
      + rewrite L in E. discriminate E.
    - destruct (parse_score_faulted s e lg G L) as [_ [_ R]].
      rewrite R. reflexivity. }
  split.
  - destruct (parse_score_faulted "6a" (ValueError "a")
                [mkDiag Error ScoreNotInWhiteList match_id (Some "6a")])
      as [_ [_ R]]; [ reflexivity | | exact R ].
    change (PyStr.split "6a") with ["6a"].
    cbn [decode_tokens]. rewrite (bind_raise _ _ _ _ (token_6a_faults tally0)).
    reflexivity.
  - split; [ | split; [ | exact G ] ].
    + assert (L : decode_tokens match_id tournament_code
                    (PyStr.split "64") tally0
                  = (Ok (mkTally 1 0 6 4 0 0), [])).
      { change (PyStr.split "64") with ["64"].
        cbn [decode_tokens]. unfold_decoder. simpl.
        destruct (String.eqb tournament_code NEXTGEN); reflexivity. }
      destruct (parse_score_played "64" _ _ eq_refl L) as [_ R].
      rewrite R. reflexivity.
    + apply G; [ reflexivity | simpl; auto ].
Qed.

End Whole.

Lemma parse_score_never_raises_witness :
  exists r lg,
    parse_score "2020-250-a-b-F" "250" "6a" = (Ok r, lg) /\
    List.length r = 7%nat /\ r = all_null /\
    lg = [mkDiag Error ScoreNotInWhiteList "2020-250-a-b-F" (Some "6a");
          mkDiag Error (ParseScoreError (ValueError "a"))
                 "2020-250-a-b-F" None].
Proof.
  destruct (parse_score_never_raises "2020-250-a-b-F" "250" "6a")
    as [r [lg [R [N H]]]].
  exists r, lg. split; [ exact R | split; [ exact N | ] ].
  apply (H (ValueError "a")
           [mkDiag Error ScoreNotInWhiteList "2020-250-a-b-F" (Some "6a")]).
  reflexivity.
Defined.

(** C2 (as stated) fails on the score ["6a"]: the outcome flag returned is
    null and none of the six numeric positions is set. *)
Lemma null_flag_with_unset_fields :
  parse_score "2020-250-a-b-F" "250" "6a" =
    (Ok all_null,
     [mkDiag Error ScoreNotInWhiteList "2020-250-a-b-F" (Some "6a");
      mkDiag Error (ParseScoreError (ValueError "a")) "2020-250-a-b-F" None])
  /\ outcome_flag all_null = VNone
  /\ forallb is_set (numeric_fields all_null) = false.
Proof. repeat split. Qed.

Lemma aggregate_invariant_unless_fault_witness :
  exists r lg,
    parse_score "2020-250-a-b-F" "250" "64 75" = (Ok r, lg) /\
    forallb is_set (numeric_fields r) = true.
Proof.
  destruct (aggregate_invariant_unless_fault "2020-250-a-b-F" "250" "64 75")
    as [r [lg [R [_ [_ [S _]]]]]].
  exists r, lg. split; [ exact R | ].
  apply S.
  - vm_compute in R. injection R as <- _. reflexivity.
  - reflexivity.
Defined.

Lemma validator_flags_but_keeps_totals_witness :
  parse_score "2020-520-a-b-F" "520" "108" =
    (Ok [VNone; VInt 1; VInt 0; VInt 10; VInt 8; VInt 0; VInt 0],
     [mkDiag Error (UnexpectedMatchScore "10") "2020-520-a-b-F" None]).
Proof.
  apply (validator_flags_but_keeps_totals "2020-520-a-b-F" "520" "108"
           (mkTally 1 0 10 8 0 0) []); reflexivity.
Defined.

Lemma sets_bounded_by_tokens_witness :
  exists w l,
    VInt 2 = VInt w /\ VInt 1 = VInt l /\ 0 <= w /\ 0 <= l /\ w + l <= 3.
Proof.
  apply (sets_bounded_by_tokens "2020-250-a-b-F" "250" "76 36 76"
           [VNone; VInt 2; VInt 1; VInt 17; VInt 18; VInt 2; VInt 0] []);
    reflexivity.
Defined.

Lemma non_digit_token_voids_match_witness :
  fst (parse_score "2020-250-a-b-F" "250" "75 6a 63") = Ok all_null.
Proof.
  apply (proj2 (proj2 (proj2 (proj2 (proj2
           (non_digit_token_voids_match "2020-250-a-b-F" "250"))))));
    [ reflexivity | simpl; auto ].
Defined.

(** ** The classifier reads the stripped text as it reads the raw text *)

Module StripFacts.
Import PyStr.

Lemma isspace_upper_char (c : ascii) : isspace (upper_char c) = isspace c.
Proof. destruct c as [[] [] [] [] [] [] [] []]; reflexivity. Qed.

Lemma upper_lstrip (s : string) :
  upper (lstrip_by isspace s) = lstrip_by isspace (upper s).
Proof.
  induction s as [|c r IH]; [ reflexivity | ].
  cbn [lstrip_by upper]. rewrite isspace_upper_char.
  destruct (isspace c); [ exact IH | reflexivity ].
Qed.

Lemma upper_rstrip (s : string) :
  upper (rstrip_by isspace s) = rstrip_by isspace (upper s).
Proof.
  induction s as [|c r IH]; [ reflexivity | ].
  cbn [rstrip_by upper]. rewrite <- IH, isspace_upper_char.
  destruct (rstrip_by isspace r) as [|d r'].
  - destruct (isspace c); reflexivity.
  - reflexivity.
Qed.

Lemma upper_strip (s : string) : upper (strip s) = strip (upper s).
Proof. unfold strip. now rewrite upper_rstrip, upper_lstrip. Qed.

Lemma prefix_nil_r (p : string) : p <> "" -> prefix p "" = false.
Proof. destruct p; [ now intros [] | reflexivity ]. Qed.

Lemma contains_nil_r (p : string) : p <> "" -> contains p "" = false.
Proof. intros H. cbn [contains]. now rewrite prefix_nil_r. Qed.

Lemma first_nonspace_nonempty (p : string) : first_nonspace p = true -> p <> "".
Proof. destruct p; [ discriminate | discriminate ]. Qed.

Lemma prefix_space_head (p : string) (c : ascii) (r : string) :
  first_nonspace p = true -> isspace c = true -> prefix p (String c r) = false.
Proof.
  destruct p as [|a p]; [ discriminate | ].
  cbn [first_nonspace prefix]. intros Ha Hc.
  destruct (ascii_dec a c) as [->|]; [ | reflexivity ].
  rewrite Hc in Ha. discriminate Ha.
Qed.

Lemma contains_lstrip (p u : string) :
  first_nonspace p = true ->
  contains p (lstrip_by isspace u) = contains p u.
Proof.
  intros Hp. induction u as [|c r IH]; [ reflexivity | ].
  cbn [lstrip_by]. destruct (isspace c) eqn:Hc; [ | reflexivity ].
  rewrite IH. cbn [contains]. now rewrite prefix_space_head.
Qed.

Lemma last_nonspace_tail (a : ascii) (p : string) :
  last_nonspace (String a p) = true -> last_nonspace p = true.
Proof. destruct p; [ reflexivity | exact (fun H => H) ]. Qed.

Lemma prefix_rstrip (u : string) :
  forall p, last_nonspace p = true ->
            prefix p (rstrip_by isspace u) = prefix p u.
Proof.
  induction u as [|c r IH]; intros p Hp; [ reflexivity | ].
  destruct p as [|a p]; [ now destruct (rstrip_by isspace (String c r)) | ].
  assert (IHp := IH p (last_nonspace_tail a p Hp)).
  cbn [rstrip_by]. destruct (rstrip_by isspace r) as [|d r'].
  - destruct (isspace c) eqn:Hc.
    + cbn [prefix]. destruct (ascii_dec a c) as [->|]; [ | reflexivity ].
      rewrite <- IHp. destruct p as [|b p]; [ | reflexivity ].
      cbn [last_nonspace] in Hp. rewrite Hc in Hp. discriminate Hp.
    + cbn [prefix]. destruct (ascii_dec a c); [ exact IHp | reflexivity ].
  - cbn [prefix]. destruct (ascii_dec a c); [ exact IHp | reflexivity ].
Qed.

Lemma contains_rstrip (p u : string) :
  p <> "" -> last_nonspace p = true ->
  contains p (rstrip_by isspace u) = contains p u.
Proof.
  intros Hne Hp. induction u as [|c r IH]; [ reflexivity | ].
  assert (P := prefix_rstrip (String c r) p Hp).
  cbn [contains]. rewrite <- P, <- IH.
  cbn [rstrip_by]. destruct (rstrip_by isspace r) as [|d r'].
  - rewrite contains_nil_r by exact Hne.
    destruct (isspace c).
    + cbn [contains]. now rewrite orb_false_r.
    + cbn [contains]. now rewrite (prefix_nil_r p Hne).
  - reflexivity.
Qed.

Lemma contains_strip (p u : string) :
  first_nonspace p = true -> last_nonspace p = true ->
  contains p (strip u) = contains p u.
Proof.
  intros Hf Hl. unfold strip.
  rewrite contains_rstrip by (auto using first_nonspace_nonempty).
  now apply contains_lstrip.
Qed.

Lemma prefix_shorter (p q : string) :
  forall u, prefix (p ++ q) u = true -> prefix p u = true.
Proof.
  induction p as [|a p IH]; intros u; [ now destruct u | ].
  destruct u as [|c r]; [ discriminate | ].
  cbn [append prefix]. destruct (ascii_dec a c); [ apply IH | discriminate ].
Qed.

Lemma contains_shorter (p q u : string) :
  contains (p ++ q) u = true -> contains p u = true.
Proof.
  induction u as [|c r IH]; cbn [contains]; intros H;
    apply orb_prop in H; destruct H as [H|H].
  - now rewrite (prefix_shorter p q _ H).
  - discriminate H.
  - now rewrite (prefix_shorter p q _ H).
  - rewrite (IH H). apply orb_true_r.
Qed.

End StripFacts.

(** What the classifier tests on the stripped, upper-cased text is what
    the raw text mentions. *)
Lemma mentions_strip (p s : string) :
  first_nonspace p = true -> last_nonspace p = true ->
  PyStr.contains p (PyStr.upper (PyStr.strip s)) = mentions p s.
Proof.
  intros Hf Hl. unfold mentions.
  rewrite StripFacts.upper_strip. now apply StripFacts.contains_strip.
Qed.

Lemma blank_mentions_nothing (p s : string) :
  first_nonspace p = true -> last_nonspace p = true ->
  PyStr.strip s = "" -> mentions p s = false.
Proof.
  intros Hf Hl E. rewrite <- (mentions_strip p s Hf Hl), E.
  apply StripFacts.contains_nil_r, StripFacts.first_nonspace_nonempty, Hf.
Qed.

Lemma mentions_RET_RE (s : string) :
  mentions "RET" s = true -> mentions "RE" s = true.
Proof. unfold mentions. exact (StripFacts.contains_shorter "RE" "T" _). Qed.

(** C5: the classifier's rules in their order.  A text that mentions
    "W/O", "INV" or "WALKOVER" is a walkover, whatever else it mentions; one
    that mentions none of them and mentions "WEA" is a weather stop; one
    that mentions none of those and mentions "RE", "DEF", "UNP" or one of
    the unfinished or abandoned phrases is a retirement; any other text is
    a played match. *)
Theorem classifier_priority (s : string) :
  (walkover_text s = true -> get_match_ret s = Some "(W/O)") /\
  (walkover_text s = false -> weather_text s = true ->
   get_match_ret s = Some "(WEA)") /\
  (walkover_text s = false -> weather_text s = false ->
   retired_text s = true -> get_match_ret s = Some "(RET)") /\
  (walkover_text s = false -> weather_text s = false ->
   retired_text s = false -> get_match_ret s = None).
Proof.
  unfold get_match_ret, walkover_text, weather_text, retired_text.
  destruct (String.eqb_spec (PyStr.strip s) "") as [E|_].
  - rewrite !(fun p Hf Hl => blank_mentions_nothing p s Hf Hl E)
      by reflexivity.
    repeat split; intros; discriminate || reflexivity.
  - rewrite !mentions_strip by reflexivity.
    assert (R := mentions_RET_RE s).
    destruct (mentions "W/O" s), (mentions "INV" s), (mentions "WALKOVER" s),
      (mentions "WEA" s); cbn [orb];
      try (repeat split; intros; discriminate || reflexivity).
    destruct (mentions "RE" s), (mentions "RET" s), (mentions "DEF" s),
      (mentions "UNP" s), (mentions "PLAYED AND UNFINISHED" s),
      (mentions "PLAYED AND ABANDONED" s), (mentions "UNFINISHED" s);
      cbn [orb]; repeat split; intros;
      first [ discriminate | reflexivity | discriminate (R eq_refl) ].
Qed.

Lemma classifier_priority_witness :
  get_match_ret "w/o wea re" = Some "(W/O)"
  /\ get_match_ret "Weather re" = Some "(WEA)"
  /\ get_match_ret "6-4 score" = Some "(RET)"
  /\ get_match_ret "64 75" = None.
Proof.
  split; [ | split; [ | split ] ].
  - apply (proj1 (classifier_priority "w/o wea re")). reflexivity.
  - apply (proj1 (proj2 (classifier_priority "Weather re"))); reflexivity.
  - apply (proj1 (proj2 (proj2 (classifier_priority "6-4 score"))));
      reflexivity.
  - apply (proj2 (proj2 (proj2 (classifier_priority "64 75"))));
      reflexivity.
Defined.

(** ** Splitting, stripping and joining *)

Module SplitFacts.
Import PyStr PyText.

Lemma append_nil_r (s : string) : s ++ "" = s.
Proof. induction s as [|c r IH]; [ reflexivity | simpl; now rewrite IH ]. Qed.

Lemma append_assoc (a b c : string) : (a ++ b) ++ c = a ++ (b ++ c).
Proof. induction a as [|x a IH]; [ reflexivity | simpl; now rewrite IH ]. Qed.

Lemma append_length (a b : string) :
  String.length (a ++ b) = (String.length a + String.length b)%nat.
Proof. induction a as [|x a IH]; [ reflexivity | simpl; now rewrite IH ]. Qed.

(** Reading a white space character closes the run being read. *)
Lemma split_from_space (cur : string) (c : ascii) (r : string) :
  isspace c = true ->
  split_from cur (String c r) =
    ((if truthy cur then [cur] else []) ++ split_from "" r)%list.
Proof. intros H. cbn [split_from]. rewrite H. now destruct cur. Qed.

Lemma split_from_cons (cur : string) (c : ascii) (r : string) :
  split_from cur (String c r) =
    if isspace c
    then match cur with
         | EmptyString => split_from "" r
         | _ => cur :: split_from "" r
         end
    else split_from (cur ++ String c "") r.
Proof. reflexivity. Qed.

Lemma split_from_end (cur : string) :
  split_from cur "" = if truthy cur then [cur] else [].
Proof. now destruct cur. Qed.

Lemma split_lstrip (s : string) : split (lstrip_by isspace s) = split s.
Proof.
  unfold split. induction s as [|c r IH]; [ reflexivity | ].
  cbn [lstrip_by]. destruct (isspace c) eqn:E; [ | reflexivity ].
  now rewrite IH, split_from_space.
Qed.

Lemma split_from_rstrip (s : string) :
  forall cur, split_from cur (rstrip_by isspace s) = split_from cur s.
Proof.
  induction s as [|c r IH]; intros cur; [ reflexivity | ].
  cbn [rstrip_by]. destruct (rstrip_by isspace r) as [|d r'] eqn:R.
  - destruct (isspace c) eqn:E.
    + rewrite split_from_space by exact E.
      rewrite <- (IH ""), !split_from_end. cbn [truthy String.eqb negb].
      now rewrite app_nil_r.
    + cbn [split_from]. rewrite E. apply IH.
  - rewrite !(split_from_cons cur c). destruct (isspace c); now rewrite !IH.
Qed.

(** [split] does not see what [strip] removes. *)
Lemma split_strip (s : string) : split (strip s) = split s.
Proof.
  unfold strip, split at 1. rewrite split_from_rstrip. apply split_lstrip.
Qed.

Lemma spaceless_app (a b : string) :
  spaceless (a ++ b) = spaceless a && spaceless b.
Proof.
  induction a as [|c a IH]; [ reflexivity | ].
  cbn [append spaceless]. now rewrite IH, andb_assoc.
Qed.

Lemma split_from_spaceless (tok : string) :
  forall cur rest,
    spaceless tok = true ->
    split_from cur (tok ++ rest) = split_from (cur ++ tok) rest.
Proof.
  induction tok as [|c tok IH]; intros cur rest H.
  - now rewrite append_nil_r.
  - cbn [spaceless] in H. apply andb_prop in H. destruct H as [Hc Ht].
    cbn [append split_from]. apply negb_true_iff in Hc. rewrite Hc.
    rewrite IH by exact Ht. now rewrite append_assoc.
Qed.

Lemma split_join (toks : list string) :
  forallb is_token toks = true -> split (join " " toks) = toks.
Proof.
  unfold split. induction toks as [|t toks IH]; [ reflexivity | ].
  cbn [forallb]. intros H. apply andb_prop in H. destruct H as [Ht Hs].
  apply andb_prop in Ht. destruct Ht as [Hne Hsp].
  destruct toks as [|u toks].
  - cbn [join]. rewrite <- (append_nil_r t) at 1.
    rewrite split_from_spaceless by exact Hsp.
    cbn [append]. rewrite split_from_end, Hne. reflexivity.
  - change (join " " (t :: u :: toks))
      with (t ++ String " " (join " " (u :: toks))).
    rewrite split_from_spaceless by exact Hsp. cbn [append].
    rewrite split_from_space by reflexivity.
    rewrite Hne, (IH Hs). reflexivity.
Qed.

Lemma strip_spaceless (s : string) : spaceless s = true -> strip s = s.
Proof.
  intros H. unfold strip.
  assert (L : lstrip_by isspace s = s).
  { destruct s as [|c r]; [ reflexivity | ].
    cbn [spaceless] in H. apply andb_prop in H. destruct H as [Hc _].
    apply negb_true_iff in Hc. cbn [lstrip_by]. now rewrite Hc. }
  rewrite L. clear L. induction s as [|c r IH]; [ reflexivity | ].
  cbn [spaceless] in H. apply andb_prop in H. destruct H as [Hc Hr].
  apply negb_true_iff in Hc. cbn [rstrip_by]. rewrite (IH Hr), Hc.
  now destruct r.
Qed.

End SplitFacts.

(** ** Composing a score text and reading it back *)

Section Compose.
Import PyStr PyText SplitFacts.

Lemma spaceless_strip (s : string) :
  spaceless s = true -> spaceless (strip s) = true.
Proof. intros H. now rewrite (strip_spaceless s H). Qed.

Lemma compose_parts_spaceless (ws : list string) :
  forall ls tbs,
    forallb spaceless ws = true -> forallb spaceless ls = true ->
    forallb spaceless tbs = true ->
    forallb spaceless (compose_parts ws ls tbs) = true.
Proof.
  induction ws as [|w ws IH]; intros ls tbs Hw Hl Ht; [ reflexivity | ].
  destruct ls as [|l ls]; [ reflexivity | ].
  cbn [forallb] in Hw, Hl.
  apply andb_prop in Hw, Hl. destruct Hw as [Hw Hws], Hl as [Hl Hls].
  cbn [compose_parts forallb]. rewrite IH; try assumption.
  - rewrite andb_true_r.
    assert (Htb : spaceless (match tbs with t :: _ => strip t | [] => "" end)
                  = true).
    { destruct tbs as [|tb tbs]; [ reflexivity | ].
      cbn [forallb] in Ht. apply andb_prop in Ht.
      now apply spaceless_strip. }
    destruct (truthy _);
      rewrite ?spaceless_app, ?spaceless_strip, ?Htb by assumption;
      reflexivity.
  - destruct tbs as [|tb tbs]; [ reflexivity | ].
    cbn [forallb] in Ht. apply andb_prop in Ht. apply Ht.
Qed.

Lemma filter_tokens (l : list string) :
  forallb spaceless l = true -> forallb is_token (filter truthy l) = true.
Proof.
  induction l as [|x l IH]; [ reflexivity | ].
  cbn [forallb filter]. intros H. apply andb_prop in H. destruct H as [Hx Hl].
  destruct (truthy x) eqn:T; [ | now apply IH ].
  cbn [forallb]. unfold is_token at 1. now rewrite T, Hx, IH.
Qed.

(** X12: the tokens [split] finds in the composed text are the parts that are
    not empty, in order, when no entry of the three arrays has white space
    inside. *)
Theorem compose_then_split (ws ls tbs : list string) :
  forallb spaceless ws = true -> forallb spaceless ls = true ->
  forallb spaceless tbs = true ->
  split (fst (compose_score_from_score_item_arrays ws ls tbs)) =
    filter truthy (compose_parts ws ls tbs).
Proof.
  intros Hw Hl Ht. cbn [compose_score_from_score_item_arrays fst].
  rewrite split_strip. apply split_join, filter_tokens.
  now apply compose_parts_spaceless.
Qed.

Lemma compose_parts_firstn (ws : list string) :
  forall ls tbs,
    compose_parts ws ls tbs =
    compose_parts
      (firstn (Nat.min (List.length ws) (List.length ls)) ws)
      (firstn (Nat.min (List.length ws) (List.length ls)) ls)
      (firstn (Nat.min (List.length ws) (List.length ls)) tbs).
Proof.
  induction ws as [|w ws IH]; intros ls tbs; [ reflexivity | ].
  destruct ls as [|l ls]; [ reflexivity | ].
  cbn [List.length Nat.min firstn compose_parts].
  rewrite (IH ls (tl tbs)). destruct tbs as [|tb tbs]; cbn [tl firstn].
  - now rewrite firstn_nil.
  - reflexivity.
Qed.

(** X13: entries past the shorter of the two score arrays, and tiebreak entries
    past it, do not reach the composed text; a Warning is written exactly
    when the two score arrays differ in length, and the part list has one
    entry for each index below both lengths. *)
Theorem compose_drops_surplus (ws ls tbs : list string) :
  let n := Nat.min (List.length ws) (List.length ls) in
  fst (compose_score_from_score_item_arrays ws ls tbs) =
    fst (compose_score_from_score_item_arrays
           (firstn n ws) (firstn n ls) (firstn n tbs))
  /\ List.length (compose_parts ws ls tbs) = n
  /\ (snd (compose_score_from_score_item_arrays ws ls tbs) = [] <->
      List.length ws = List.length ls).
Proof.
  cbv zeta. split; [ | split ].
  - cbn [compose_score_from_score_item_arrays fst].
    now rewrite <- compose_parts_firstn.
  - revert ls tbs. induction ws as [|w ws IH]; intros ls tbs; [ reflexivity | ].
    destruct ls as [|l ls]; [ reflexivity | ].
    cbn [compose_parts List.length Nat.min]. now rewrite IH.
  - cbn [compose_score_from_score_item_arrays snd].
    destruct (Nat.eqb_spec (List.length ws) (List.length ls)) as [E|E].
    + tauto.
    + split; [ discriminate | intros H; now destruct E ].
Qed.

End Compose.

(** ** What one token adds does not depend on the counters *)

Section Deltas.

Variables match_id tournament_code : string.

Lemma tally_eq (t u : Tally) :
  winner_sets_won t = winner_sets_won u ->
  loser_sets_won t = loser_sets_won u ->
  winner_games_won t = winner_games_won u ->
  loser_games_won t = loser_games_won u ->
  winner_tiebreaks_won t = winner_tiebreaks_won u ->
  loser_tiebreaks_won t = loser_tiebreaks_won u ->
  t = u.
Proof. destruct t, u; simpl; intros; subst; reflexivity. Qed.

Lemma tally_add_0_r (t : Tally) : tally_add t tally0 = t.
Proof. apply tally_eq; simpl; lia. Qed.

Lemma tally_add_swap (t d e : Tally) :
  tally_add (tally_add t d) e = tally_add (tally_add t e) d.
Proof. apply tally_eq; simpl; lia. Qed.

(** A token decoded from counters [t] gives [t] plus what it gives from
    zero, and faults from [t] exactly when it faults from zero. *)
Lemma decode_token_shift (tok : string) (t : Tally) :
  fst (decode_token match_id tournament_code tok t) =
  match fst (decode_token match_id tournament_code tok tally0) with
  | Ok d => Ok (tally_add t d)
  | Raise e => Raise e
  end.
Proof.
  unfold_decoder. repeat rewrite ?fst_bind; simpl.
  split_tests; try reflexivity; f_equal; apply tally_eq; simpl; lia.
Qed.

Lemma decode_tokens_cons (x : string) (l : list string) (t : Tally) :
  fst (decode_tokens match_id tournament_code (x :: l) t) =
  match fst (decode_token match_id tournament_code x t) with
  | Ok t1 => fst (decode_tokens match_id tournament_code l t1)
  | Raise e => Raise e
  end.
Proof. cbn [decode_tokens]. apply fst_bind. Qed.

Lemma decode_tokens_perm (toks toks' : list string) :
  Permutation toks toks' ->
  forall t r,
    fst (decode_tokens match_id tournament_code toks t) = Ok r ->
    fst (decode_tokens match_id tournament_code toks' t) = Ok r.
Proof.
  induction 1 as [ | x l l' _ IH | x y l | l l' l'' _ IH1 _ IH2 ];
    intros t r.
  - exact (fun H => H).
  - rewrite !decode_tokens_cons.
    destruct (fst (decode_token _ _ x t)); [ apply IH | discriminate ].
  - rewrite !decode_tokens_cons.
    rewrite (decode_token_shift y t), (decode_token_shift x t).
    destruct (fst (decode_token _ _ y tally0)) as [dy|] eqn:Y;
      [ | discriminate ].
    rewrite decode_tokens_cons, (decode_token_shift x (tally_add t dy)).
    destruct (fst (decode_token _ _ x tally0)) as [dx|] eqn:X;
      [ | discriminate ].
    rewrite decode_tokens_cons, (decode_token_shift y (tally_add t dx)), Y.
    now rewrite (tally_add_swap t dx dy).
  - intros H. apply IH2, IH1, H.
Qed.

(** Tiebreaks go to the side that gets the set: a token adds to each
    tiebreak counter at most what it adds to the same side's sets, and
    takes nothing off either. *)
Lemma token_tiebreak_le_set (tok : string) (t t' : Tally) :
  fst (decode_token match_id tournament_code tok t) = Ok t' ->
  0 <= winner_tiebreaks_won t' - winner_tiebreaks_won t
    <= winner_sets_won t' - winner_sets_won t /\
  0 <= loser_tiebreaks_won t' - loser_tiebreaks_won t
    <= loser_sets_won t' - loser_sets_won t.
Proof.
  unfold_decoder. repeat rewrite ?fst_bind; simpl.
  split_tests; try discriminate; intros H; inversion H; subst; simpl; lia.
Qed.

Lemma loop_tiebreak_le_set (toks : list string) :
  forall t t',
    fst (decode_tokens match_id tournament_code toks t) = Ok t' ->
    0 <= winner_tiebreaks_won t' - winner_tiebreaks_won t
      <= winner_sets_won t' - winner_sets_won t /\
    0 <= loser_tiebreaks_won t' - loser_tiebreaks_won t
      <= loser_sets_won t' - loser_sets_won t.
Proof.
  induction toks as [|tok toks IH]; intros t t'.
  - simpl. intros [= <-]. lia.
  - cbn [decode_tokens]. rewrite fst_bind.
    destruct (fst (decode_token _ _ tok t)) as [t1|e] eqn:E; [ | discriminate ].
    intros H. apply IH in H. apply token_tiebreak_le_set in E. lia.
Qed.

(** X3: the order of the sets in the score does not matter to the totals: two
    played scores with the same tokens in any order return the same list,
    when the first is decoded without a fault. *)
Theorem totals_do_not_depend_on_set_order
    (s s' : string) (r : list Value) :
  Permutation (PyStr.split s) (PyStr.split s') ->
  get_match_ret s = None -> get_match_ret s' = None ->
  faults match_id tournament_code s = false ->
  fst (parse_score match_id tournament_code s) = Ok r ->
  fst (parse_score match_id tournament_code s') = Ok r.
Proof.
  intros P G G' F R.
  destruct (decode_tokens match_id tournament_code (PyStr.split s) tally0)
    as [[t|e] lg] eqn:L.
  - destruct (parse_score_played match_id tournament_code s t lg G L)
      as [_ R1].
    rewrite R1 in R. injection R as <-.
    assert (L' := decode_tokens_perm _ _ P tally0 t).
    rewrite L in L'. specialize (L' eq_refl).
    destruct (decode_tokens match_id tournament_code (PyStr.split s') tally0)
      as [o lg'] eqn:E.
    cbn [fst] in L'. subst o.
    destruct (parse_score_played match_id tournament_code s' t lg' G' E)
      as [_ R2].
    now rewrite R2.
  - destruct (parse_score_faulted match_id tournament_code s e lg G L)
      as [_ [F' _]].
    congruence.
Qed.

(** X4: in every list returned for a played score that did not fault, each
    side's tiebreak count lies between zero and that side's set count. *)
Theorem tiebreaks_within_sets
    (s : string) (r : list Value) (lg : list Diagnostic) :
  parse_score match_id tournament_code s = (Ok r, lg) ->
  outcome_flag r = VNone ->
  faults match_id tournament_code s = false ->
  exists ws ls wt lt,
    nth 1 r VNone = VInt ws /\ nth 2 r VNone = VInt ls /\
    nth 5 r VNone = VInt wt /\ nth 6 r VNone = VInt lt /\
    0 <= wt <= ws /\ 0 <= lt <= ls.
Proof.
  intros R N F.
  destruct (get_match_ret s) as [flag|] eqn:G.
  - destruct (parse_score_not_played match_id tournament_code s flag G)
      as [_ R'].
    rewrite R' in R. injection R as <- <-. discriminate N.
  - destruct (decode_tokens match_id tournament_code (PyStr.split s) tally0)
      as [[t|e] lg'] eqn:L.
    + destruct (parse_score_played match_id tournament_code s t lg' G L)
        as [_ R'].
      rewrite R' in R. injection R as <- <-.
      assert (B := loop_tiebreak_le_set (PyStr.split s) tally0 t).
      rewrite L in B. specialize (B eq_refl). simpl in B.
      exists (winner_sets_won t), (loser_sets_won t),
        (winner_tiebreaks_won t), (loser_tiebreaks_won t).
      repeat split; try reflexivity; lia.
    + destruct (parse_score_faulted match_id tournament_code s e lg' G L)
        as [_ [F' _]].
      congruence.
Qed.

(** X5: a blank score text, empty or all white space, is a played match with
    all six counts zero, and the only diagnostic is the validator's Error
    about the set count 0-0. *)
Theorem blank_score_is_played_with_zeros (s : string) :
  PyStr.strip s = "" ->
  parse_score match_id tournament_code s =
    (Ok [VNone; VInt 0; VInt 0; VInt 0; VInt 0; VInt 0; VInt 0],
     [mkDiag Error (UnexpectedMatchScore "00") match_id None]).
Proof.
  intros B.
  assert (G : get_match_ret s = None)
    by (unfold get_match_ret; now rewrite B).
  assert (S : PyStr.split s = [])
    by (rewrite <- SplitFacts.split_strip, B; reflexivity).
  destruct (parse_score_played match_id tournament_code s tally0 [] G)
    as [_ R].
  - now rewrite S.
  - rewrite R. reflexivity.
Qed.

(** A token without a bracket whose length is 1, 5 or 6 falls in no branch:
    the counters stay as they are and one Error is written. *)
Lemma unhandled_length (tok : string) (t : Tally) :
  PyStr.contains "[" tok = false ->
  String.length tok = 1%nat \/ String.length tok = 5%nat
  \/ String.length tok = 6%nat ->
  decode_token match_id tournament_code tok t =
    (Ok t, [mkDiag Error UnhandledSetFormat match_id (Some tok)]).
Proof.
  intros B L. unfold decode_token. rewrite B.
  destruct L as [-> | [-> | ->]]; reflexivity.
Qed.

(** X14: a set composed with a tiebreak detail of one or two characters, as in
    ["76(5)"], is a token of five or six characters: the decoder leaves
    the counters as they are and writes the Error for a set format it does
    not handle. *)
Theorem composed_tiebreak_set_not_tallied
    (a b : ascii) (tb : string) (t : Tally) :
  PyStr.isspace a = false -> PyStr.isspace b = false ->
  PyText.is_token tb = true ->
  (String.length tb <= 2)%nat ->
  PyStr.contains "[" (token2 a b ++ "(" ++ tb ++ ")") = false ->
  compose_parts [String a ""] [String b ""] [tb] =
    [token2 a b ++ "(" ++ tb ++ ")"]
  /\ decode_token match_id tournament_code
       (token2 a b ++ "(" ++ tb ++ ")") t =
     (Ok t,
      [mkDiag Error UnhandledSetFormat match_id
         (Some (token2 a b ++ "(" ++ tb ++ ")"))]).
Proof.
  intros Ha Hb Ht Hn Hc. unfold PyText.is_token in Ht.
  apply andb_prop in Ht. destruct Ht as [Hne Hsp]. split.
  - cbn [compose_parts tl].
    rewrite (SplitFacts.strip_spaceless tb Hsp), Hne.
    rewrite !SplitFacts.strip_spaceless
      by (cbn [PyText.spaceless]; rewrite ?Ha, ?Hb; reflexivity).
    reflexivity.
  - apply unhandled_length; [ exact Hc | ].
    destruct tb as [|x [|y [|z tb]]]; cbn in Hne, Hn |- *;
      [ discriminate | auto | auto | lia ].
Qed.

End Deltas.

(** ** Four-character tokens of digits *)

Section FourDigit.

Variables match_id tournament_code : string.

Lemma two_digit_table :
  forallb (fun a => forallb (fun b =>
    match PyStr.int (token2 a b) with
    | Some z => z =? two_digit_value a b
    | None => false
    end) digits) digits = true.
Proof. vm_compute. reflexivity. Qed.

Lemma four_digit_table :
  forallb (fun a => forallb (fun b => forallb (fun c => forallb (fun d =>
    negb (PyStr.contains "[" (token4 a b c d))
    && Bool.eqb (String.ltb (token2 c d) (token2 a b))
                (two_digit_value c d <? two_digit_value a b))
    digits) digits) digits) digits = true.
Proof. vm_compute. reflexivity. Qed.

Lemma int_two_digits (a b : ascii) :
  PyStr.isdigit a = true -> PyStr.isdigit b = true ->
  PyStr.int (token2 a b) = Some (two_digit_value a b).
Proof.
  intros Ha Hb. apply isdigit_cases in Ha, Hb.
  assert (T := two_digit_table).
  rewrite forallb_forall in T. specialize (T a Ha).
  rewrite forallb_forall in T. specialize (T b Hb).
  destruct (PyStr.int (token2 a b)); [ | discriminate T ].
  apply Z.eqb_eq in T. now subst.
Qed.

Lemma four_digits (a b c d : ascii) :
  PyStr.isdigit a = true -> PyStr.isdigit b = true ->
  PyStr.isdigit c = true -> PyStr.isdigit d = true ->
  PyStr.contains "[" (token4 a b c d) = false /\
  String.ltb (token2 c d) (token2 a b) =
    (two_digit_value c d <? two_digit_value a b).
Proof.
  intros Ha Hb Hc Hd. apply isdigit_cases in Ha, Hb, Hc, Hd.
  assert (T := four_digit_table).
  rewrite forallb_forall in T. specialize (T a Ha).
  rewrite forallb_forall in T. specialize (T b Hb).
  rewrite forallb_forall in T. specialize (T c Hc).
  rewrite forallb_forall in T. specialize (T d Hd).
  apply andb_prop in T. destruct T as [T1 T2].
  apply negb_true_iff in T1. apply eqb_prop in T2. auto.
Qed.

(** X6: for a token of four digits the comparison of its two halves as texts
    is their comparison as numbers: the side with the greater number gets
    the set, both sides get their number as games, equal halves change
    nothing, the tiebreak counters are never touched and the token never
    faults. *)
Theorem four_digit_token_compares_numbers (a b c d : ascii) (t : Tally) :
  PyStr.isdigit a = true -> PyStr.isdigit b = true ->
  PyStr.isdigit c = true -> PyStr.isdigit d = true ->
  fst (decode_token match_id tournament_code (token4 a b c d) t) =
    Ok (if two_digit_value c d <? two_digit_value a b
        then mkTally (winner_sets_won t + 1) (loser_sets_won t)
                     (winner_games_won t + two_digit_value a b)
                     (loser_games_won t + two_digit_value c d)
                     (winner_tiebreaks_won t) (loser_tiebreaks_won t)
        else if two_digit_value a b <? two_digit_value c d
        then mkTally (winner_sets_won t) (loser_sets_won t + 1)
                     (winner_games_won t + two_digit_value a b)
                     (loser_games_won t + two_digit_value c d)
                     (winner_tiebreaks_won t) (loser_tiebreaks_won t)
        else t).
Proof.
  intros Ha Hb Hc Hd.
  destruct (four_digits a b c d Ha Hb Hc Hd) as [B G1].
  destruct (four_digits c d a b Hc Hd Ha Hb) as [_ G2].
  unfold decode_token. rewrite B.
  change (String.length (token4 a b c d)) with 4%nat. cbn [Nat.eqb].
  unfold decode_len4.
  change (PyStr.take 2 (token4 a b c d)) with (token2 a b).
  change (PyStr.drop 2 (token4 a b c d)) with (token2 c d).
  unfold PyStr.gt at 2 3. rewrite G1, G2. unfold py_int.
  rewrite !(int_two_digits a b Ha Hb), !(int_two_digits c d Hc Hd).
  destruct (negb (PyStr.mem tournament_code grand_slams)
            || PyStr.gt (token4 a b c d) "2200");
    (destruct (two_digit_value c d <? two_digit_value a b);
     [ | destruct (two_digit_value a b <? two_digit_value c d) ]);
    cbn [bind ret fst snd diag log];
    try match goal with
        | |- context [if ?x <? 2 then _ else _] => destruct (x <? 2)
        end;
    reflexivity.
Qed.

End FourDigit.

(** ** Replacing and removing characters *)

Module ReplaceFacts.
Import PyStr PyText.

Lemma contains_char_cons (c a : ascii) (r : string) :
  contains (String c "") (String a r) =
  Ascii.eqb c a || contains (String c "") r.
Proof.
  cbn [contains prefix]. destruct (ascii_dec c a) as [->|N].
  - rewrite Ascii.eqb_refl. now destruct r.
  - apply Ascii.eqb_neq in N. now rewrite N.
Qed.

Lemma remove_char_cons (c a : ascii) (r : string) :
  replace (String c "") "" (String a r) =
  if Ascii.eqb c a then replace (String c "") "" r
  else String a (replace (String c "") "" r).
Proof.
  unfold replace. cbn [replace_skip prefix String.length Nat.sub].
  destruct (ascii_dec c a) as [->|N].
  - rewrite Ascii.eqb_refl. now destruct r.
  - apply Ascii.eqb_neq in N. now rewrite N.
Qed.

(** After [s.replace(c, "")] the character [c] is gone. *)
Lemma removed_char_absent (c : ascii) (s : string) :
  contains (String c "") (replace (String c "") "" s) = false.
Proof.
  induction s as [|a r IH]; [ reflexivity | ].
  rewrite remove_char_cons. destruct (Ascii.eqb c a) eqn:E; [ exact IH | ].
  now rewrite contains_char_cons, E, IH.
Qed.

(** Removing a character brings no other character in. *)
Lemma remove_keeps_absent (c d : ascii) (s : string) :
  contains (String c "") s = false ->
  contains (String c "") (replace (String d "") "" s) = false.
Proof.
  induction s as [|a r IH]; [ reflexivity | ].
  rewrite contains_char_cons, remove_char_cons. intros H.
  apply orb_false_elim in H. destruct H as [Ha Hr].
  destruct (Ascii.eqb d a); [ now apply IH | ].
  now rewrite contains_char_cons, Ha, IH.
Qed.

Lemma substring_keeps_absent (c : ascii) (s : string) :
  forall n m,
    contains (String c "") s = false ->
    contains (String c "") (substring n m s) = false.
Proof.
  induction s as [|a r IH]; intros n m H.
  - now destruct n, m.
  - rewrite contains_char_cons in H.
    apply orb_false_elim in H. destruct H as [Ha Hr].
    destruct n as [|n]; [ destruct m as [|m] | ]; cbn [substring].
    + reflexivity.
    + now rewrite contains_char_cons, Ha, IH.
    + now apply IH.
Qed.

(** One pass of [replace("  ", " ")], by the state of the scan. *)
Lemma squeeze_pass_cons (c : ascii) (r : string) :
  replace_skip "  " " " 0 (String c r) =
  if prefix "  " (String c r)
  then String " " (replace_skip "  " " " 1 r)
  else String c (replace_skip "  " " " 0 r).
Proof. reflexivity. Qed.

Lemma squeeze_pass_skip (c : ascii) (r : string) :
  replace_skip "  " " " 1 (String c r) = replace_skip "  " " " 0 r.
Proof. reflexivity. Qed.

Lemma prefix_two_spaces (c : ascii) (r : string) :
  prefix "  " (String c r) = true ->
  c = " "%char /\ exists r', r = String " " r'.
Proof.
  cbn [prefix]. destruct (ascii_dec " " c) as [<-|]; [ | discriminate ].
  destruct r as [|d r']; [ discriminate | ]. cbn [prefix].
  destruct (ascii_dec " " d) as [<-|]; [ | discriminate ].
  intros _. split; [ reflexivity | now exists r' ].
Qed.

(** A pass never lengthens the text and shortens it when it has two
    spaces in a row. *)
Lemma squeeze_pass_length (s : string) :
  (String.length (replace_skip "  " " " 0 s) <= String.length s)%nat /\
  (s <> "" ->
   String.length (replace_skip "  " " " 1 s) < String.length s)%nat /\
  (contains "  " s = true ->
   String.length (replace_skip "  " " " 0 s) < String.length s)%nat.
Proof.
  induction s as [|c r [IH0 [IH1 IH2]]].
  - split; [ apply Nat.le_refl | split ].
    + intros H. now destruct H.
    + discriminate.
  - rewrite squeeze_pass_cons, squeeze_pass_skip.
    split; [ | split ].
    + destruct (prefix "  " (String c r)) eqn:P; cbn [String.length].
      * apply prefix_two_spaces in P. destruct P as [_ [r' ->]].
        assert (String " " r' <> "") by discriminate.
        specialize (IH1 H). lia.
      * lia.
    + intros _. cbn [String.length]. lia.
    + cbn [contains]. destruct (prefix "  " (String c r)) eqn:P;
        cbn [String.length orb].
      * intros _. apply prefix_two_spaces in P. destruct P as [_ [r' ->]].
        assert (String " " r' <> "") by discriminate.
        specialize (IH1 H). lia.
      * intros C. specialize (IH2 C). lia.
Qed.

(** A pass leaves the tokens as they are. *)
Lemma squeeze_pass_split (s : string) :
  (forall cur, split_from cur (replace_skip "  " " " 0 s) = split_from cur s)
  /\ (forall r', s = String " " r' ->
        split_from "" (replace_skip "  " " " 1 s) = split_from "" s).
Proof.
  induction s as [|c r [IH0 IH1]].
  - split; [ reflexivity | discriminate ].
  - split.
    + intros cur. rewrite squeeze_pass_cons.
      destruct (prefix "  " (String c r)) eqn:P.
      * apply prefix_two_spaces in P. destruct P as [-> [r' E]].
        rewrite !SplitFacts.split_from_space by reflexivity.
        now rewrite (IH1 r' E).
      * rewrite !(SplitFacts.split_from_cons cur c).
        now rewrite !IH0.
    + intros r' [= -> ->]. rewrite squeeze_pass_skip.
      rewrite (SplitFacts.split_from_space "" " " r') by reflexivity.
      apply IH0.
Qed.

End ReplaceFacts.

(** ** Squeezing the spaces of a score text *)

Lemma squeeze_loop_enough (fuel : nat) :
  forall s,
    (String.length s <= fuel)%nat ->
    exists r, squeeze_loop fuel s = Some r.
Proof.
  induction fuel as [|f IH]; intros s L.
  - destruct s; [ now exists "" | cbn in L; lia ].
  - cbn [squeeze_loop]. destruct (PyStr.contains "  " s) eqn:C.
    + apply IH. unfold PyText.replace.
      destruct (ReplaceFacts.squeeze_pass_length s) as [_ [_ H]].
      specialize (H C). lia.
    + now exists s.
Qed.

Lemma squeeze_loop_result (fuel : nat) :
  forall s r,
    squeeze_loop fuel s = Some r ->
    PyStr.contains "  " r = false /\ PyStr.split r = PyStr.split s
    /\ (String.length r <= String.length s)%nat.
Proof.
  induction fuel as [|f IH]; intros s r; cbn [squeeze_loop];
    destruct (PyStr.contains "  " s) eqn:C; try discriminate.
  - intros [= <-]. auto.
  - intros H. apply IH in H. destruct H as [H1 [H2 H3]].
    split; [ exact H1 | ]. unfold PyText.replace in H2, H3.
    destruct (ReplaceFacts.squeeze_pass_split s) as [S _].
    destruct (ReplaceFacts.squeeze_pass_length s) as [Ln _].
    split; [ | lia ]. rewrite H2. unfold PyStr.split. apply S.
  - intros [= <-]. auto.
Qed.

(** X15: the loop that squeezes runs of spaces ends: [len(match_score)] passes
    always suffice, and the text it ends with has no two spaces in a row
    and is not longer than the text it started from. *)
Theorem squeeze_loop_terminates (s : string) :
  exists r,
    squeeze_loop (String.length s) s = Some r /\
    PyStr.contains "  " r = false /\
    (String.length r <= String.length s)%nat.
Proof.
  destruct (squeeze_loop_enough (String.length s) s (Nat.le_refl _))
    as [r R].
  exists r. split; [ exact R | ].
  destruct (squeeze_loop_result _ _ _ R) as [H1 [_ H3]]. auto.
Qed.

(** X16: squeezing does not change the tokens: the text the loop ends with
    splits into the same tokens as the text it started from, so the decoder
    tallies the same sets. *)
Theorem squeeze_keeps_tokens (s : string) :
  exists r,
    squeeze_loop (String.length s) s = Some r /\
    PyStr.split r = PyStr.split s.
Proof.
  destruct (squeeze_loop_enough (String.length s) s (Nat.le_refl _))
    as [r R].
  exists r. split; [ exact R | ].
  now destruct (squeeze_loop_result _ _ _ R) as [_ [E _]].
Qed.

(** ** Normalizing a tie-set text *)

Section Normalize.
Import PyStr PyText.

Lemma normalize_value (s : string) :
  fst (normalize_tie_set_score s) =
  if String.eqb s "" then s
  else if String.eqb (at_ 0 s) "[" then
    let tmp := replace "]" "" (replace "[" "" (replace "-" "" s)) in
    "10[" ++ (if Nat.ltb 2 (String.length tmp) then drop 2 tmp else tmp)
          ++ "]"
  else s.
Proof.
  unfold normalize_tie_set_score.
  destruct (String.eqb s ""); [ reflexivity | ].
  destruct (String.eqb (at_ 0 s) "["); reflexivity.
Qed.

(** X8: normalizing twice gives what normalizing once gives. *)
Theorem normalize_tie_set_score_idempotent (s : string) :
  fst (normalize_tie_set_score (fst (normalize_tie_set_score s))) =
  fst (normalize_tie_set_score s).
Proof.
  rewrite (normalize_value s).
  destruct (String.eqb s "") eqn:E; [ now rewrite normalize_value, E | ].
  destruct (String.eqb (at_ 0 s) "[") eqn:B.
  - rewrite normalize_value. reflexivity.
  - now rewrite normalize_value, E, B.
Qed.

Lemma contains_char_app (c : ascii) (a b : string) :
  contains (String c "") (a ++ b) =
  contains (String c "") a || contains (String c "") b.
Proof.
  induction a as [|x a IH].
  - cbn [append]. now destruct b.
  - cbn [append]. rewrite !ReplaceFacts.contains_char_cons, IH.
    now rewrite orb_assoc.
Qed.

(** X9: a text that starts with a bracket is rewritten as ["10["], a tail and
    ["]"], and the tail has no hyphen and no bracket: the result has one
    opening bracket, one closing bracket, at its end, and no hyphen. *)
Theorem normalize_bracket_first_shape (s : string) :
  at_ 0 s = "[" ->
  exists tail,
    fst (normalize_tie_set_score s) = "10[" ++ tail ++ "]" /\
    contains "-" tail = false /\ contains "[" tail = false /\
    contains "]" tail = false /\
    contains "-" (fst (normalize_tie_set_score s)) = false.
Proof.
  intros B. rewrite normalize_value.
  assert (E : String.eqb s "" = false)
    by (destruct s; [ discriminate | reflexivity ]).
  rewrite E, B. cbn [String.eqb Ascii.eqb Bool.eqb]. cbv zeta.
  set (tmp := replace "]" "" (replace "[" "" (replace "-" "" s))).
  assert (H1 : contains "-" tmp = false).
  { unfold tmp. apply ReplaceFacts.remove_keeps_absent,
      ReplaceFacts.remove_keeps_absent, ReplaceFacts.removed_char_absent. }
  assert (H2 : contains "[" tmp = false).
  { unfold tmp. apply ReplaceFacts.remove_keeps_absent,
      ReplaceFacts.removed_char_absent. }
  assert (H3 : contains "]" tmp = false).
  { unfold tmp. apply ReplaceFacts.removed_char_absent. }
  set (tail := if Nat.ltb 2 (String.length tmp) then drop 2 tmp else tmp).
  assert (T : forall c, contains (String c "") tmp = false ->
                        contains (String c "") tail = false).
  { intros c H. unfold tail. destruct (Nat.ltb 2 (String.length tmp));
      [ now apply ReplaceFacts.substring_keeps_absent | exact H ]. }
  exists tail. repeat split; try (now apply T).
  change ("10[" ++ tail ++ "]")
    with (String "1" (String "0" (String "[" (tail ++ "]")))).
  rewrite !ReplaceFacts.contains_char_cons, (contains_char_app "-"), (T _ H1).
  reflexivity.
Qed.

(** X10: normalizing keeps a bracket token a bracket token, so the decoder
    tallies the normalized token as it tallies the token itself. *)
Theorem normalize_keeps_bracket_tally
    (match_id tournament_code s : string) (t : Tally) :
  contains "[" s = true ->
  contains "[" (fst (normalize_tie_set_score s)) = true /\
  fst (decode_token match_id tournament_code
         (fst (normalize_tie_set_score s)) t) =
  fst (decode_token match_id tournament_code s t).
Proof.
  intros H.
  assert (N : contains "[" (fst (normalize_tie_set_score s)) = true).
  { rewrite normalize_value.
    destruct (String.eqb s ""); [ exact H | ].
    destruct (String.eqb (at_ 0 s) "["); [ | exact H ].
    cbv zeta.
    match goal with
    | |- contains _ ("10[" ++ ?x ++ "]") = true =>
        change ("10[" ++ x ++ "]")
          with (String "1" (String "0" (String "[" (x ++ "]"))))
    end.
    now rewrite !ReplaceFacts.contains_char_cons. }
  split; [ exact N | ].
  unfold decode_token. rewrite N, H. unfold decode_bracket, diag.
  destruct (String.eqb tournament_code LAVER_CUP); reflexivity.
Qed.

End Normalize.

(** ** Adjustments: the rows loaded and the score they override *)

Lemma dict_get_app (k : string) (l m : Dict) :
  dict_get k (l ++ m)%list =
  match dict_get k l with
  | Some v => Some v
  | None => dict_get k m
  end.
Proof.
  induction l as [|[k' v'] l IH]; [ reflexivity | ].
  cbn [app dict_get]. destruct (String.eqb k k'); [ reflexivity | exact IH ].
Qed.

Lemma dict_get_fetch (k : string) (rows : list (string * string)) :
  forall target,
    dict_get k (fetch_adjustments rows target) =
    match dict_get k (rev rows) with
    | Some v => Some v
    | None => dict_get k target
    end.
Proof.
  unfold fetch_adjustments.
  induction rows as [|[k' v'] rows IH]; intros target; [ reflexivity | ].
  cbn [fold_left rev fst snd]. rewrite IH, dict_get_app.
  unfold dict_set. cbn [dict_get].
  destruct (dict_get k (rev rows)); [ reflexivity | ].
  destruct (String.eqb k k'); reflexivity.
Qed.

Lemma dict_get_absent (k : string) (d : Dict) :
  forallb (fun row => negb (String.eqb (fst row) k)) d = true ->
  dict_get k d = None.
Proof.
  induction d as [|[k' v'] d IH]; [ reflexivity | ].
  cbn [forallb dict_get fst]. intros H. apply andb_prop in H.
  destruct H as [H1 H2]. rewrite String.eqb_sym. apply negb_true_iff in H1.
  rewrite H1. now apply IH.
Qed.

(** X11: after the rows are loaded, the score of a match is overridden by the
    value of the last row with its id, with one Warning; a match with no
    row, and no entry before the load, keeps its score and nothing is
    written. *)
Theorem adjust_score_follows_last_row
    (rows : list (string * string)) (target : Dict)
    (match_id score : string) :
  (forall before value after,
     rows = (before ++ (match_id, value) :: after)%list ->
     forallb (fun row => negb (String.eqb (fst row) match_id)) after = true ->
     adjust_score (fetch_adjustments rows target) match_id score =
       (value, [mkNote Warning (AdjustmentApplied match_id value)]))
  /\ (forallb (fun row => negb (String.eqb (fst row) match_id)) rows = true ->
      dict_get match_id target = None ->
      adjust_score (fetch_adjustments rows target) match_id score =
        (score, [])).
Proof.
  unfold adjust_score. split.
  - intros before value after -> A. rewrite dict_get_fetch.
    rewrite rev_app_distr. cbn [rev]. rewrite <- app_assoc. cbn [app].
    rewrite dict_get_app, dict_get_absent.
    + cbn [dict_get]. now rewrite String.eqb_refl.
    + rewrite forallb_forall in *. intros x Hx. apply A. now apply in_rev.
  - intros A T. rewrite dict_get_fetch, T.
    rewrite dict_get_absent; [ reflexivity | ].
    rewrite forallb_forall in *. intros x Hx. apply A. now apply in_rev.
Qed.

(** ** Scores written with digits only *)

Section DigitsOnly.

Variables match_id tournament_code : string.

Lemma one_digit_table :
  forallb (fun a =>
    match PyStr.int (String a "") with
    | Some z => (z =? PyStr.digit_val a) && (0 <=? z) && (z <=? 9)
    | None => false
    end) digits = true.
Proof. vm_compute. reflexivity. Qed.

Lemma int_one_digit (a : ascii) :
  PyStr.isdigit a = true ->
  PyStr.int (String a "") = Some (PyStr.digit_val a) /\
  0 <= PyStr.digit_val a <= 9.
Proof.
  intros Ha. apply isdigit_cases in Ha.
  assert (T := one_digit_table).
  rewrite forallb_forall in T. specialize (T a Ha).
  destruct (PyStr.int (String a "")); [ | discriminate T ].
  apply andb_prop in T. destruct T as [T T3].
  apply andb_prop in T. destruct T as [T1 T2].
  apply Z.eqb_eq in T1. apply Z.leb_le in T2, T3. subst.
  split; [ reflexivity | lia ].
Qed.

Lemma two_digit_value_bounds (a b : ascii) :
  PyStr.isdigit a = true -> PyStr.isdigit b = true ->
  0 <= two_digit_value a b <= 99.
Proof.
  intros Ha Hb. unfold two_digit_value.
  destruct (int_one_digit a Ha) as [_ A], (int_one_digit b Hb) as [_ B]. lia.
Qed.

Lemma digit_not_bracket (a : ascii) :
  PyStr.isdigit a = true -> Ascii.eqb "[" a = false.
Proof.
  intros Ha. apply isdigit_cases in Ha. simpl in Ha.
  repeat (destruct Ha as [<- | Ha]; [ reflexivity | ]). destruct Ha.
Qed.

Lemma all_digits_no_bracket (tok : string) :
  all_digits tok = true -> PyStr.contains "[" tok = false.
Proof.
  induction tok as [|a r IH]; [ reflexivity | ].
  cbn [all_digits]. intros H. apply andb_prop in H. destruct H as [Ha Hr].
  rewrite ReplaceFacts.contains_char_cons, (digit_not_bracket a Ha).
  now apply IH.
Qed.

Lemma tally_le_refl (t : Tally) : tally_le t t.
Proof. unfold tally_le. lia. Qed.

Lemma tally_le_trans (t u v : Tally) :
  tally_le t u -> tally_le u v -> tally_le t v.
Proof. unfold tally_le. lia. Qed.

Ltac slices :=
  cbn [PyStr.at_ PyStr.take PyStr.drop PyStr.slice PyStr.last1 substring
       String.length Nat.sub].

Ltac digit_facts :=
  repeat match goal with
  | H : PyStr.isdigit ?a = true |- _ =>
      lazymatch goal with
      | _ : PyStr.int (String a "") = _ |- _ => fail
      | _ => destruct (int_one_digit a H) as [? ?]
      end
  end.

Ltac finish_le :=
  eexists; split; [ reflexivity | unfold tally_le; simpl; lia ].

(** A token of digits never faults and takes nothing off any counter. *)
Lemma digit_token_decodes (tok : string) (t : Tally) :
  all_digits tok = true ->
  exists t',
    fst (decode_token match_id tournament_code tok t) = Ok t' /\
    tally_le t t'.
Proof.
  intros D. assert (B := all_digits_no_bracket tok D).
  unfold decode_token. rewrite B. clear B.
  destruct tok as [|a [|b [|c [|d [|e [|f [|g rest]]]]]]];
    cbn [String.length Nat.eqb Nat.leb];
    cbn [all_digits] in D;
    repeat match type of D with
    | _ && _ = true => apply andb_prop in D; destruct D as [? D]
    end;
    try (cbn [bind ret fst snd diag log]; exists t; split;
         [ reflexivity | apply tally_le_refl ]).
  - (* two characters *)
    unfold decode_len2, py_int, diag. slices. digit_facts.
    repeat match goal with H : PyStr.int _ = Some _ |- _ => rewrite H end.
    repeat rewrite ?fst_bind; simpl.
    split_tests; finish_le.
  - (* three characters *)
    unfold decode_len3, py_int, diag. slices.
    change (String a (String b "")) with (token2 a b).
    rewrite (int_two_digits a b) by assumption.
    assert (V := two_digit_value_bounds a b H H0).
    digit_facts.
    repeat match goal with H : PyStr.int _ = Some _ |- _ => rewrite H end.
    repeat rewrite ?fst_bind; simpl.
    split_tests; finish_le.
  - (* four characters *)
    unfold decode_len4, py_int, diag. slices.
    change (String a (String b "")) with (token2 a b).
    change (String c (String d "")) with (token2 c d).
    rewrite !(int_two_digits a b), !(int_two_digits c d) by assumption.
    assert (V1 := two_digit_value_bounds a b H H0).
    assert (V2 := two_digit_value_bounds c d H1 H2).
    repeat rewrite ?fst_bind; simpl.
    split_tests; finish_le.
  - (* seven characters or more *)
    unfold decode_len7, py_int, diag. slices.
    change (String a (String b "")) with (token2 a b).
    change (String c (String d "")) with (token2 c d).
    rewrite !(int_two_digits a b), !(int_two_digits c d) by assumption.
    assert (V1 := two_digit_value_bounds a b H H0).
    assert (V2 := two_digit_value_bounds c d H1 H2).
    repeat rewrite ?fst_bind; simpl.
    split_tests; finish_le.
Qed.

End DigitsOnly.

Section DigitScores.

Variables match_id tournament_code : string.

Lemma all_digits_app (a b : string) :
  all_digits (a ++ b) = all_digits a && all_digits b.
Proof.
  induction a as [|c a IH]; [ reflexivity | ].
  cbn [append all_digits]. now rewrite IH, andb_assoc.
Qed.

Lemma split_from_digits (s : string) :
  forall cur,
    all_digits cur = true -> digits_and_spaces s = true ->
    forallb all_digits (PyStr.split_from cur s) = true.
Proof.
  induction s as [|c r IH]; intros cur C D.
  - destruct cur; [ reflexivity | ].
    cbn [PyStr.split_from forallb]. now rewrite C.
  - cbn [digits_and_spaces] in D. apply andb_prop in D. destruct D as [Dc Dr].
    rewrite SplitFacts.split_from_cons. destruct (PyStr.isspace c) eqn:S.
    + destruct cur; [ now apply IH | ].
      cbn [forallb]. rewrite C. now apply IH.
    + rewrite orb_false_r in Dc. apply IH; [ | exact Dr ].
      rewrite all_digits_app, C. cbn [all_digits]. now rewrite Dc.
Qed.

Lemma digits_and_spaces_lstrip (s : string) :
  digits_and_spaces s = true ->
  digits_and_spaces (PyStr.lstrip_by PyStr.isspace s) = true.
Proof.
  induction s as [|c r IH]; [ reflexivity | ].
  intros D. cbn [PyStr.lstrip_by]. destruct (PyStr.isspace c); [ | exact D ].
  cbn [digits_and_spaces] in D. apply andb_prop in D. now apply IH.
Qed.

Lemma digits_and_spaces_rstrip (s : string) :
  digits_and_spaces s = true ->
  digits_and_spaces (PyStr.rstrip_by PyStr.isspace s) = true.
Proof.
  induction s as [|c r IH]; [ reflexivity | ].
  cbn [digits_and_spaces]. intros D. apply andb_prop in D.
  destruct D as [Dc Dr]. specialize (IH Dr). cbn [PyStr.rstrip_by].
  destruct (PyStr.rstrip_by PyStr.isspace r) as [|d r'].
  - destruct (PyStr.isspace c) eqn:S; [ reflexivity | ].
    cbn [digits_and_spaces]. rewrite S. now rewrite Dc.
  - change (digits_and_spaces (String c (String d r')))
      with ((PyStr.isdigit c || PyStr.isspace c)
            && digits_and_spaces (String d r')).
    now rewrite Dc, IH.
Qed.

Lemma upper_char_digit_or_space (c : ascii) :
  PyStr.isdigit c || PyStr.isspace c = true -> PyStr.upper_char c = c.
Proof.
  destruct c as [[] [] [] [] [] [] [] []]; intros H;
    try discriminate H; reflexivity.
Qed.

Lemma upper_digits_and_spaces (s : string) :
  digits_and_spaces s = true -> PyStr.upper s = s.
Proof.
  induction s as [|c r IH]; [ reflexivity | ].
  cbn [digits_and_spaces PyStr.upper]. intros D. apply andb_prop in D.
  destruct D as [Dc Dr]. now rewrite (upper_char_digit_or_space c Dc), IH.
Qed.

(** A pattern whose first character is no digit and no white space does
    not occur in a text of digits and white space. *)
Lemma pattern_absent (p u : string) :
  match p with
  | EmptyString => false
  | String a _ => negb (PyStr.isdigit a || PyStr.isspace a)
  end = true ->
  digits_and_spaces u = true -> PyStr.contains p u = false.
Proof.
  destruct p as [|a p]; [ discriminate | ]. intros Ha.
  apply negb_true_iff in Ha.
  induction u as [|c r IH]; [ reflexivity | ].
  cbn [digits_and_spaces]. intros D. apply andb_prop in D.
  destruct D as [Dc Dr]. cbn [PyStr.contains prefix].
  destruct (ascii_dec a c) as [->|_]; [ congruence | ].
  now apply IH.
Qed.

Lemma digit_score_is_played (s : string) :
  digits_and_spaces s = true -> get_match_ret s = None.
Proof.
  intros D. unfold get_match_ret.
  destruct (String.eqb (PyStr.strip s) ""); [ reflexivity | ].
  assert (U : digits_and_spaces (PyStr.strip s) = true)
    by (unfold PyStr.strip;
        now apply digits_and_spaces_rstrip, digits_and_spaces_lstrip).
  rewrite (upper_digits_and_spaces _ U).
  now rewrite !(fun p H => pattern_absent p _ H U) by reflexivity.
Qed.

Lemma digit_tokens_decode (toks : list string) :
  forall t,
    forallb all_digits toks = true ->
    exists t',
      fst (decode_tokens match_id tournament_code toks t) = Ok t' /\
      tally_le t t'.
Proof.
  induction toks as [|tok toks IH]; intros t D.
  - exists t. split; [ reflexivity | apply tally_le_refl ].
  - cbn [forallb] in D. apply andb_prop in D. destruct D as [D1 D2].
    destruct (digit_token_decodes match_id tournament_code tok t D1)
      as [t1 [E1 L1]].
    destruct (IH t1 D2) as [t' [E' L']].
    exists t'. split; [ | now apply (tally_le_trans t t1 t') ].
    rewrite decode_tokens_cons, E1. exact E'.
Qed.

(** X1: a score text of digits and white space only is a played match, is
    decoded without a fault, and returns six counts none of which is
    negative. *)
Theorem digit_score_never_faults (s : string) :
  digits_and_spaces s = true ->
  faults match_id tournament_code s = false /\
  exists t,
    fst (parse_score match_id tournament_code s) = Ok (played_result t) /\
    tally_le tally0 t.
Proof.
  intros D. assert (G := digit_score_is_played s D).
  destruct (digit_tokens_decode (PyStr.split s) tally0) as [t [E L]].
  { unfold PyStr.split. now apply split_from_digits. }
  destruct (decode_tokens match_id tournament_code (PyStr.split s) tally0)
    as [o lg] eqn:R.
  cbn [fst] in E. subst o.
  destruct (parse_score_played match_id tournament_code s t lg G R)
    as [F P].
  split; [ exact F | ]. exists t. now rewrite P.
Qed.

(** X7: for a token of seven digits or more the first two pairs of digits are
    compared as numbers: the side with the greater pair gets the set and
    one tiebreak, the two pairs are added as games (["7665432"] adds 76
    and 65), and equal pairs change nothing. *)
Theorem long_digit_token_compares_pairs
    (a b c d : ascii) (rest : string) (t : Tally) :
  PyStr.isdigit a = true -> PyStr.isdigit b = true ->
  PyStr.isdigit c = true -> PyStr.isdigit d = true ->
  all_digits rest = true -> (3 <= String.length rest)%nat ->
  fst (decode_token match_id tournament_code (token4 a b c d ++ rest) t) =
    Ok (if two_digit_value c d <? two_digit_value a b
        then mkTally (winner_sets_won t + 1) (loser_sets_won t)
                     (winner_games_won t + two_digit_value a b)
                     (loser_games_won t + two_digit_value c d)
                     (winner_tiebreaks_won t + 1) (loser_tiebreaks_won t)
        else if two_digit_value a b <? two_digit_value c d
        then mkTally (winner_sets_won t) (loser_sets_won t + 1)
                     (winner_games_won t + two_digit_value a b)
                     (loser_games_won t + two_digit_value c d)
                     (winner_tiebreaks_won t) (loser_tiebreaks_won t + 1)
        else t).
Proof.
  intros Ha Hb Hc Hd Hr Hn.
  destruct (four_digits a b c d Ha Hb Hc Hd) as [_ G1].
  destruct (four_digits c d a b Hc Hd Ha Hb) as [_ G2].
  assert (B : PyStr.contains "[" (token4 a b c d ++ rest) = false).
  { apply all_digits_no_bracket. rewrite all_digits_app, Hr.
    cbn [token4 all_digits]. now rewrite Ha, Hb, Hc, Hd. }
  unfold decode_token. rewrite B.
  destruct rest as [|e [|f [|g rest]]]; cbn [String.length] in Hn; try lia.
  cbn [token4 append String.length Nat.eqb Nat.leb].
  unfold decode_len7, py_int, PyStr.gt, PyStr.lt.
  cbn [PyStr.take PyStr.slice substring Nat.sub].
  change (String a (String b "")) with (token2 a b).
  change (String c (String d "")) with (token2 c d).
  rewrite G1, G2, !(int_two_digits a b Ha Hb), !(int_two_digits c d Hc Hd).
  destruct (two_digit_value c d <? two_digit_value a b);
    [ | destruct (two_digit_value a b <? two_digit_value c d) ];
    reflexivity.
Qed.

End DigitScores.

(** ** The score text chosen for a match *)

Section Select.
Import PyStr PyText.

Lemma lstrip_keeps_absent (c : ascii) (s : string) :
  contains (String c "") s = false ->
  contains (String c "") (lstrip_by isspace s) = false.
Proof.
  induction s as [|a r IH]; [ reflexivity | ].
  intros H. cbn [lstrip_by]. destruct (isspace a); [ | exact H ].
  rewrite ReplaceFacts.contains_char_cons in H.
  apply orb_false_elim in H. now apply IH.
Qed.

Lemma rstrip_keeps_absent (c : ascii) (s : string) :
  contains (String c "") s = false ->
  contains (String c "") (rstrip_by isspace s) = false.
Proof.
  induction s as [|a r IH]; [ reflexivity | ].
  rewrite ReplaceFacts.contains_char_cons. intros H.
  apply orb_false_elim in H. destruct H as [Ha Hr]. specialize (IH Hr).
  cbn [rstrip_by]. destruct (rstrip_by isspace r) as [|d r'].
  - destruct (isspace a); [ reflexivity | ].
    now rewrite ReplaceFacts.contains_char_cons, Ha.
  - now rewrite ReplaceFacts.contains_char_cons, Ha, IH.
Qed.

Lemma strip_keeps_absent (c : ascii) (s : string) :
  contains (String c "") s = false ->
  contains (String c "") (strip s) = false.
Proof.
  intros H. unfold strip. now apply rstrip_keeps_absent, lstrip_keeps_absent.
Qed.

(** X17: the score cut from the notes has no line feed, carriage return, tab,
    dot or hyphen, whatever the notes are. *)
Theorem notes_score_is_clean (raw_notes : string) :
  contains LF (notes_score raw_notes) = false /\
  contains CR (notes_score raw_notes) = false /\
  contains TAB (notes_score raw_notes) = false /\
  contains "." (notes_score raw_notes) = false /\
  contains "-" (notes_score raw_notes) = false.
Proof.
  unfold notes_score, LF, CR, TAB.
  repeat split; apply strip_keeps_absent;
    repeat first [ apply ReplaceFacts.removed_char_absent
                 | apply ReplaceFacts.remove_keeps_absent ].
Qed.


End Select.

(** ** What the match id and the tournament code can change *)

Section Context.

Variables match_id match_id' tournament_code tournament_code' : string.

Hypothesis same_format :
  String.eqb tournament_code NEXTGEN = String.eqb tournament_code' NEXTGEN.

Lemma decode_token_context (tok : string) (t : Tally) :
  fst (decode_token match_id tournament_code tok t) =
  fst (decode_token match_id' tournament_code' tok t).
Proof.
  unfold_decoder. rewrite same_format.
  generalize (String.eqb tournament_code' NEXTGEN). intros nextgen.
  repeat rewrite ?fst_bind; simpl.
  split_tests; reflexivity.
Qed.

Lemma decode_tokens_context (toks : list string) :
  forall t,
    fst (decode_tokens match_id tournament_code toks t) =
    fst (decode_tokens match_id' tournament_code' toks t).
Proof.
  induction toks as [|tok toks IH]; intros t; [ reflexivity | ].
  rewrite !decode_tokens_cons, decode_token_context.
  destruct (fst (decode_token _ _ tok t)); [ apply IH | reflexivity ].
Qed.

(** X2: the list returned does not depend on the match id, and depends on the
    tournament code only through whether it is the NextGen code: two calls
    on the same score whose codes are both NextGen or both not return the
    same list. *)
Theorem result_depends_only_on_nextgen (s : string) :
  fst (parse_score match_id tournament_code s) =
  fst (parse_score match_id' tournament_code' s).
Proof.
  assert (L := decode_tokens_context (PyStr.split s) tally0).
  destruct (get_match_ret s) as [flag|] eqn:G.
  - destruct (parse_score_not_played match_id tournament_code s flag G)
      as [_ ->].
    destruct (parse_score_not_played match_id' tournament_code' s flag G)
      as [_ ->].
    reflexivity.
  - destruct (decode_tokens match_id tournament_code (PyStr.split s) tally0)
      as [o lg] eqn:R.
    destruct (decode_tokens match_id' tournament_code' (PyStr.split s) tally0)
      as [o' lg'] eqn:R'.
    cbn [fst] in L. subst o'. destruct o as [t|e].
    + destruct (parse_score_played match_id tournament_code s t lg G R)
        as [_ ->].
      destruct (parse_score_played match_id' tournament_code' s t lg' G R')
        as [_ ->].
      reflexivity.
    + destruct (parse_score_faulted match_id tournament_code s e lg G R)
        as [_ [_ ->]].
      destruct (parse_score_faulted match_id' tournament_code' s e lg' G R')
        as [_ [_ ->]].
      reflexivity.
Qed.

End Context.

(** ** The theorems at concrete scores *)

Lemma compose_then_split_witness :
  PyStr.split
    (fst (compose_score_from_score_item_arrays
            ["6"; "7"] ["4"; "6"] [""; "5"])) = ["64"; "76(5)"].
Proof.
  apply (compose_then_split ["6"; "7"] ["4"; "6"] [""; "5"]); reflexivity.
Defined.

Lemma compose_drops_surplus_witness :
  fst (compose_score_from_score_item_arrays ["6"; "7"; "6"] ["4"; "6"] []) =
    "64 76"
  /\ snd (compose_score_from_score_item_arrays ["6"; "7"] ["4"; "6"] []) = [].
Proof.
  split.
  - exact (proj1 (compose_drops_surplus ["6"; "7"; "6"] ["4"; "6"] [])).
  - apply (proj2 (proj2 (compose_drops_surplus ["6"; "7"] ["4"; "6"] []))).
    reflexivity.
Defined.

Lemma composed_tiebreak_set_not_tallied_witness :
  compose_parts ["7"] ["6"] ["5"] = ["76(5)"]
  /\ decode_token "2023-404-a-b-F" "404" "76(5)" (mkTally 1 0 6 4 0 0) =
       (Ok (mkTally 1 0 6 4 0 0),
        [mkDiag Error UnhandledSetFormat "2023-404-a-b-F" (Some "76(5)")]).
Proof.
  apply (composed_tiebreak_set_not_tallied "2023-404-a-b-F" "404"
           "7" "6" "5" (mkTally 1 0 6 4 0 0));
    solve [ reflexivity | simpl; lia ].
Defined.

Lemma totals_do_not_depend_on_set_order_witness :
  fst (parse_score "2023-404-a-b-F" "404" "75 64 36") =
    Ok [VNone; VInt 2; VInt 1; VInt 16; VInt 15; VInt 0; VInt 0].
Proof.
  apply (totals_do_not_depend_on_set_order "2023-404-a-b-F" "404"
           "64 36 75" "75 64 36").
  - apply Permutation_sym.
    exact (Permutation_cons_append ["64"; "36"] "75").
  - reflexivity.
  - reflexivity.
  - reflexivity.
  - reflexivity.
Defined.

Lemma tiebreaks_within_sets_witness :
  exists ws ls wt lt,
    VInt 2 = VInt ws /\ VInt 1 = VInt ls /\
    VInt 2 = VInt wt /\ VInt 0 = VInt lt /\
    0 <= wt <= ws /\ 0 <= lt <= ls.
Proof.
  apply (tiebreaks_within_sets "2023-404-a-b-F" "404" "76 36 76"
           [VNone; VInt 2; VInt 1; VInt 17; VInt 18; VInt 2; VInt 0] []);
    reflexivity.
Defined.

Lemma blank_score_is_played_with_zeros_witness :
  parse_score "2023-404-a-b-F" "404" "   " =
    (Ok [VNone; VInt 0; VInt 0; VInt 0; VInt 0; VInt 0; VInt 0],
     [mkDiag Error (UnexpectedMatchScore "00") "2023-404-a-b-F" None]).
Proof.
  apply (blank_score_is_played_with_zeros "2023-404-a-b-F" "404" "   ").
  reflexivity.
Defined.

Lemma four_digit_token_compares_numbers_witness :
  fst (decode_token "2010-540-a-b-R128" "540" "7068" tally0) =
    Ok (mkTally 1 0 70 68 0 0).
Proof.
  apply (four_digit_token_compares_numbers "2010-540-a-b-R128" "540"
           "7" "0" "6" "8" tally0); reflexivity.
Defined.

Lemma normalize_bracket_first_shape_witness :
  exists tail,
    "10[8]" = "10[" ++ tail ++ "]" /\
    PyStr.contains "-" tail = false /\ PyStr.contains "[" tail = false /\
    PyStr.contains "]" tail = false /\ PyStr.contains "-" "10[8]" = false.
Proof.
  apply (normalize_bracket_first_shape "[10-8]"). reflexivity.
Defined.

Lemma normalize_keeps_bracket_tally_witness :
  PyStr.contains "[" "10[8]" = true
  /\ fst (decode_token "2022-9210-a-b-F" "9210" "10[8]" tally0) =
     fst (decode_token "2022-9210-a-b-F" "9210" "[10-8]" tally0).
Proof.
  apply (normalize_keeps_bracket_tally "2022-9210-a-b-F" "9210" "[10-8]"
           tally0).
  reflexivity.
Defined.

Lemma adjust_score_follows_last_row_witness :
  adjust_score
    (fetch_adjustments [("m1", "64 64"); ("m2", "W/O"); ("m1", "75 75")] [])
    "m1" "64 6a" =
    ("75 75", [mkNote Warning (AdjustmentApplied "m1" "75 75")])
  /\ adjust_score
       (fetch_adjustments [("m1", "64 64"); ("m2", "W/O")] [])
       "m3" "64 75" = ("64 75", []).
Proof.
  split.
  - apply (proj1 (adjust_score_follows_last_row
                    [("m1", "64 64"); ("m2", "W/O"); ("m1", "75 75")] []
                    "m1" "64 6a")
             [("m1", "64 64"); ("m2", "W/O")] "75 75" []);
      reflexivity.
  - apply (proj2 (adjust_score_follows_last_row
                    [("m1", "64 64"); ("m2", "W/O")] [] "m3" "64 75"));
      reflexivity.
Defined.

Lemma digit_score_never_faults_witness :
  faults "2010-540-a-b-R128" "540" "64 36 7068" = false
  /\ exists t,
       fst (parse_score "2010-540-a-b-R128" "540" "64 36 7068") =
         Ok (played_result t) /\ tally_le tally0 t.
Proof.
  apply (digit_score_never_faults "2010-540-a-b-R128" "540" "64 36 7068").
  reflexivity.
Defined.

Lemma long_digit_token_compares_pairs_witness :
  fst (decode_token "2023-404-a-b-F" "404" "7665432" tally0) =
    Ok (mkTally 1 0 76 65 1 0).
Proof.
  apply (long_digit_token_compares_pairs "2023-404-a-b-F" "404"
           "7" "6" "6" "5" "432" tally0);
    solve [ reflexivity | simpl; lia ].
Defined.


Lemma result_depends_only_on_nextgen_witness :
  fst (parse_score "2023-520-a-b-F" "520" "8679 43") =
  fst (parse_score "2023-96-c-d-SF" "96" "8679 43").
Proof.
  apply (result_depends_only_on_nextgen
           "2023-520-a-b-F" "2023-96-c-d-SF" "520" "96").
  reflexivity.
Defined.

(** ** Fields between separators *)

Module FieldFacts.

Lemma split_on_field (sep : ascii) (f : string) :
  forall cur rest,
    lacks sep f = true ->
    split_on_from sep cur (f ++ rest) = split_on_from sep (cur ++ f) rest.
Proof.
  induction f as [|c f IH]; intros cur rest H.
  - now rewrite SplitFacts.append_nil_r.
  - cbn [lacks] in H. apply andb_prop in H. destruct H as [Hc Hf].
    apply negb_true_iff in Hc. cbn [append split_on_from]. rewrite Hc.
    rewrite IH by exact Hf. now rewrite SplitFacts.append_assoc.
Qed.

(** Splitting what [join] built gives the fields back, when no field has
    the separator inside and there is at least one field. *)
Lemma split_on_join (sep : ascii) (f : string) (fields : list string) :
  forallb (lacks sep) (f :: fields) = true ->
  split_on sep (PyText.join (String sep "") (f :: fields)) = f :: fields.
Proof.
  unfold split_on. revert f.
  induction fields as [|g fields IH]; intros f H;
    cbn [forallb] in H; apply andb_prop in H; destruct H as [Hf Hr].
  - cbn [PyText.join]. rewrite <- (SplitFacts.append_nil_r f) at 1.
    now rewrite split_on_field.
  - change (PyText.join (String sep "") (f :: g :: fields))
      with (f ++ String sep (PyText.join (String sep "") (g :: fields))).
    rewrite split_on_field by exact Hf.
    cbn [append split_on_from]. rewrite Ascii.eqb_refl.
    now rewrite (IH g Hr).
Qed.

End FieldFacts.

(** ** Reading back the decimal text of an integer *)

Module IntFacts.
Import PyStr.










End IntFacts.

(** ** The duration and the tournament code of a match *)


(** X20: from a results URL of the expected shape,
    [<prefix>/en/scores/archive/<slug>/<code>/<year>/results], the code
    taken is the [<code>] field, whatever the slug, the code and the year
    are, as long as none of them has a slash inside. *)
Theorem tournament_code_of_results_url (slug code year : string) :
  lacks "/" slug = true -> lacks "/" code = true -> lacks "/" year = true ->
  tournament_code_of_url
    (ATP_URL_PREFIX ++ "/en/scores/archive/" ++ slug ++ "/" ++ code
       ++ "/" ++ year ++ "/results") = code.
Proof.
  intros Hs Hc Hy. unfold tournament_code_of_url.
  change (ATP_URL_PREFIX ++ "/en/scores/archive/" ++ slug ++ "/" ++ code
            ++ "/" ++ year ++ "/results")
    with (PyText.join "/"
            ["https:"; ""; "www.atptour.com"; "en"; "scores"; "archive";
             slug; code; year; "results"]).
  rewrite FieldFacts.split_on_join; [ reflexivity | ].
  cbn [forallb]. now rewrite Hs, Hc, Hy.
Qed.

Lemma tournament_code_of_results_url_witness :
  tournament_code_of_url
    (ATP_URL_PREFIX ++ "/en/scores/archive/next-gen-finals/7696/2023/results")
  = "7696".
Proof.
  apply (tournament_code_of_results_url "next-gen-finals" "7696" "2023");
    reflexivity.
Defined.

